(** * ms-rest-nodeauth: credentials and login flows

    A shallow embedding of
    - [lib/credentials/applicationTokenCredentials.ts]
      (constructor, [getToken], [getTokenFromCache],
      [removeInvalidItemsFromCache]),
    - the [DeviceTokenCredentials] constructor, and
    - the login module ([validateAuthFileContent],
      [foundManagementEndpointUrl],
      [withServicePrincipalSecretWithAuthResponse],
      [withInteractiveWithAuthResponse]).

    JavaScript values are a small inductive type, JS objects used as
    dictionaries are [gmap string _], promises are computations in a
    state-passing monad that threads the trace of calls made to the wrapped
    library (ADAL), the token cache and the subscription helper. *)

From Stdlib Require Import String Ascii List ZArith Bool Lia.
From stdpp Require Import base option gmap strings.
Import ListNotations.
Local Open Scope string_scope.

(* ===================================================================== *)
(** * JavaScript strings *)
(* ===================================================================== *)

(** [s.startsWith(p)] *)
Definition startsWith (s p : string) : bool := String.prefix p s.

(** [s.endsWith(t)] *)
Definition endsWith (s t : string) : bool :=
  (String.length t <=? String.length s)%nat
  && String.eqb (substring (String.length s - String.length t) (String.length t) s) t.

(** [s.slice(0, -1)] *)
Definition slice_0_m1 (s : string) : string :=
  substring 0 (String.length s - 1) s.

(** [toLowerCase] on one ASCII code unit: only [A]..[Z] move. *)
Definition toLowerCaseChar (c : ascii) : ascii :=
  let n := nat_of_ascii c in
  if (65 <=? n)%nat && (n <=? 90)%nat then ascii_of_nat (n + 32) else c.

(** [s.toLowerCase()]; URL strings are taken to be ASCII. *)
Fixpoint toLowerCase (s : string) : string :=
  match s with
  | EmptyString => EmptyString
  | String c s' => String (toLowerCaseChar c) (toLowerCase s')
  end.

(** The double-quote character, used in template literals. *)
Definition dquote : string := String (ascii_of_nat 34) EmptyString.

(* ===================================================================== *)
(** * JavaScript values, errors, truthiness *)
(* ===================================================================== *)

#[warnings="-register-all"]
Inductive JsValue : Type :=
| VUndefined
| VNull
| VBool (b : bool)
| VNumber (n : Z)
| VString (s : string)
| VArray (items : list JsValue)
| VObject (props : gmap string JsValue).

(** [Boolean(v)] *)
Definition truthy (v : JsValue) : bool :=
  match v with
  | VUndefined | VNull => false
  | VBool b => b
  | VNumber n => negb (n =? 0)%Z
  | VString s => negb (String.eqb s "")
  | VArray _ | VObject _ => true
  end.

(** [typeof v.valueOf() === 'string'] *)
Definition typeof_string (v : JsValue) : bool :=
  match v with VString _ => true | _ => false end.

(** [v.k] for a property name [k] that no built-in prototype defines:
    own property of an object, [undefined] otherwise. *)
Definition getProp (v : JsValue) (k : string) : JsValue :=
  match v with
  | VObject o => default VUndefined (o !! k)
  | _ => VUndefined
  end.

(** [new Error(message)] *)
Record Error : Type := mkError { message : string }.

(** A synchronous call either throws or returns. *)
Definition throw {A : Type} (msg : string) : Error + A := inl (mkError msg).

(* ===================================================================== *)
(** * Effects: the trace of calls leaving this layer, and promises *)
(* ===================================================================== *)

Inductive Event : Type :=
| CallAcquireToken (resource : string) (username : option string) (clientId : string)
| CallAcquireTokenWithClientCredentials (resource clientId secret : string)
| CallAcquireUserCode (resource clientId language : string)
| CallAcquireTokenWithDeviceCode (resource clientId : string) (userCodeInfo : JsValue)
| CallCacheFind (query : JsValue)
| CallCacheRemove (entries : list JsValue)
| CallUserCodeResponseLogger (msg : JsValue)
| CallConsoleLog (msg : JsValue)
| CallBuildTenantList
| CallGetSubscriptionsFromTenants (tenants : list string).

Definition isLiveAcquisition (e : Event) : bool :=
  match e with CallAcquireTokenWithClientCredentials _ _ _ => true | _ => false end.

(** Number of [acquireTokenWithClientCredentials] calls in a trace. *)
Definition liveAcquisitions (t : list Event) : nat :=
  List.length (List.filter isLiveAcquisition t).

(** Computations that extend the trace (oldest call first). *)
Definition M (A : Type) : Type := list Event -> A * list Event.

Definition ret {A : Type} (a : A) : M A := fun t => (a, t).

Definition bind {A B : Type} (m : M A) (k : A -> M B) : M B :=
  fun t => let (a, t') := m t in k a t'.

Definition emit (e : Event) : M unit := fun t => (tt, (t ++ [e])%list).

Declare Scope js_scope.
Delimit Scope js_scope with js.
Notation "x <- m ;; k" := (bind m (fun x => k))
  (at level 100, m at next level, right associativity) : js_scope.
Notation "m ;;; k" := (bind m (fun _ => k))
  (at level 100, right associativity) : js_scope.
Local Open Scope js_scope.

(** A settled promise. Every callback handed to a collaborator is assumed
    to be invoked, synchronously, so promises are modelled by their
    settlement together with the calls made on the way. *)
Inductive Settled (A : Type) : Type :=
| Fulfilled (value : A)
| Rejected (reason : Error).
Arguments Fulfilled {A} value.
Arguments Rejected {A} reason.

Definition Promise (A : Type) : Type := M (Settled A).

(** [Promise.resolve(v)], or a handler returning the plain value [v]. *)
Definition Promise_resolve {A : Type} (v : A) : Promise A := ret (Fulfilled v).

(** [Promise.reject(e)], or a handler throwing [e]. *)
Definition Promise_reject {A : Type} (e : Error) : Promise A := ret (Rejected e).

(** [p.then(onFulfilled)]: a rejection passes through untouched. *)
Definition then_ {A B : Type} (p : Promise A) (onFulfilled : A -> Promise B) : Promise B :=
  r <- p ;;
  match r with
  | Fulfilled v => onFulfilled v
  | Rejected e => ret (Rejected e)
  end.

(** [p.catch(onRejected)]: a fulfilment passes through untouched. *)
Definition catch_ {A : Type} (p : Promise A) (onRejected : Error -> Promise A) : Promise A :=
  r <- p ;;
  match r with
  | Fulfilled v => ret (Fulfilled v)
  | Rejected e => onRejected e
  end.

(** What a node-style callback [(error, result) => ...] receives. *)
Record CallbackReply : Type := mkReply { cb_error : option Error; cb_result : JsValue }.

(** [new Promise((resolve, reject) => call(..., (error, result) =>
      { if (error) return reject(error); return resolve(result); }))] *)
Definition settleFromCallback (r : CallbackReply) : Settled JsValue :=
  match cb_error r with
  | Some error => Rejected error
  | None => Fulfilled (cb_result r)
  end.

(* ===================================================================== *)
(** * Collaborators outside this repository's sources *)
(* ===================================================================== *)

(** The token cache handed to a credential ([tokenCache: any], ADAL's
    [TokenCache] interface). Its behaviour is not this layer's: each
    operation is described by what it does with the callback it is given. *)
Module TokenCache.
(** [find(query, callback)] *)
Inductive FindReply : Type :=
| FindCallsBack (error : option Error) (entries : option (list JsValue))
| FindThrows (e : Error).

(** [remove(entries, callback)] *)
Inductive RemoveReply : Type :=
| RemoveCallsBack (error : option Error)  (* calls back, then returns *)
| RemoveReturns                           (* returns undefined, callback not yet invoked *)
| RemoveThrows (e : Error).               (* throws before calling back *)

Record t : Type := {
  find : JsValue -> FindReply;
  remove : list JsValue -> RemoveReply
}.
End TokenCache.

(** ADAL's [AuthenticationContext]: each acquisition call, by the
    arguments of its completion callback. *)
Module AuthenticationContext.
Record t : Type := {
  acquireToken : string -> option string -> string -> CallbackReply;
  acquireTokenWithClientCredentials : string -> string -> string -> CallbackReply;
  acquireUserCode : string -> string -> string -> CallbackReply;
  acquireTokenWithDeviceCode : string -> string -> JsValue -> CallbackReply
}.
End AuthenticationContext.

(** [TokenAudience], from [util/authConstants]. *)
Definition TokenAudience : Type := string.

(** The fields of an [AzureEnvironment] that these flows read. *)
Record Environment : Type := {
  name : string;
  activeDirectoryEndpointUrl : string;
  activeDirectoryResourceId : string;
  validateAuthority : bool
}.

(** Modelled from the spec: the state of [TokenCredentialsBase], whose
    source file is missing ("Credential: identity (client identifier),
    tenant/domain string, token-audience selector, identity-provider
    environment descriptor, and a handle to a token cache"), plus the ADAL
    context the subclasses call through [this.authContext]. *)
Record TokenCredentialsBase : Type := {
  clientId : string;
  domain : string;
  tokenAudience : option TokenAudience;
  environment : Environment;
  tokenCache : TokenCache.t;
  authContext : AuthenticationContext.t
}.

(** Everything imported from modules that are not part of the sources:
    [util/authConstants], [adal-node], [ms-rest-azure-env],
    [subscriptionManagement/subscriptionUtils] and the parts of
    [TokenCredentialsBase] that cannot be read off its callers. *)
Record Imports : Type := {
  SDK_INTERNAL_ERROR : string;
  AAD_COMMON_TENANT : string;
  DEFAULT_ADAL_CLIENT_ID : string;
  DEFAULT_LANGUAGE : string;
  TokenAudience_graph : TokenAudience;
  AzureEnvironment_Azure : Environment;
  adal_MemoryCache : TokenCache.t;
  adal_AuthenticationContext : string -> bool -> TokenCache.t -> AuthenticationContext.t;
  (** the argument validation of the base constructor: [Some e] throws [e] *)
  base_validate : string -> string -> option TokenAudience ->
                  option Environment -> option TokenCache.t -> option Error;
  getActiveDirectoryResourceId : TokenCredentialsBase -> string;
  buildTenantList : TokenCredentialsBase -> Settled (list string);
  getSubscriptionsFromTenants : TokenCredentialsBase -> list string -> Settled (list JsValue)
}.

Record ApplicationTokenCredentials : Type := {
  app_super : TokenCredentialsBase;
  secret : string
}.

Record DeviceTokenCredentials : Type := {
  dev_super : TokenCredentialsBase;
  username : string
}.

(** [this.getTokenFromCache()] is a protected method reached through
    [this]: [getToken] runs whichever implementation the object carries. *)
Class Dispatch : Type := {
  this_getTokenFromCache : ApplicationTokenCredentials -> Promise JsValue
}.

Section Credentials.

Variable lib : Imports.

(** Modelled from the spec: the constructor of [TokenCredentialsBase]
    (missing from the sources): validation errors are thrown synchronously,
    before any I/O; otherwise the arguments are stored, with the default
    environment and ADAL's memory cache standing in for absent ones. *)
Definition TokenCredentialsBase_new
    (clientId domain : string) (tokenAudience : option TokenAudience)
    (environment : option Environment) (tokenCache : option TokenCache.t)
  : Error + TokenCredentialsBase :=
  match base_validate lib clientId domain tokenAudience environment tokenCache with
  | Some e => inl e
  | None =>
      let environment := default (AzureEnvironment_Azure lib) environment in
      let tokenCache := default (adal_MemoryCache lib) tokenCache in
      let authorityUrl := activeDirectoryEndpointUrl environment ++ domain in
      inr {| clientId := clientId;
             domain := domain;
             tokenAudience := tokenAudience;
             environment := environment;
             tokenCache := tokenCache;
             authContext := adal_AuthenticationContext lib authorityUrl
                              (validateAuthority environment) tokenCache |}
  end.

(** Modelled from the spec: [TokenCredentialsBase.getTokenFromCache]
    (missing from the sources), "attempt cache lookup scoped to this
    credential's identity": one [acquireToken] call on the ADAL context,
    settled by its callback. *)
Definition TokenCredentialsBase_getTokenFromCache
    (self : TokenCredentialsBase) (username : option string) : Promise JsValue :=
  let resource := getActiveDirectoryResourceId lib self in
  emit (CallAcquireToken resource username (clientId self)) ;;;
  ret (settleFromCallback
         (AuthenticationContext.acquireToken (authContext self) resource username (clientId self))).

(* --------------------------------------------------------------------- *)
(** ** applicationTokenCredentials.ts *)
(* --------------------------------------------------------------------- *)

(** [new ApplicationTokenCredentials(clientId, domain, secret,
    tokenAudience, environment, tokenCache)] *)
Definition ApplicationTokenCredentials_new
    (clientId domain secret : string) (tokenAudience : option TokenAudience)
    (environment : option Environment) (tokenCache : option TokenCache.t)
  : Error + ApplicationTokenCredentials :=
  if negb (truthy (VString secret)) || negb (typeof_string (VString secret)) then
    throw "secret must be a non empty string."
  else
    match TokenCredentialsBase_new clientId domain tokenAudience environment tokenCache with
    | inl e => inl e
    | inr super => inr {| app_super := super; secret := secret |}
    end.

(** [removeInvalidItemsFromCache(query)] *)
Definition removeInvalidItemsFromCache
    (self : ApplicationTokenCredentials) (query : JsValue) : Promise JsValue :=
  emit (CallCacheFind query) ;;;
  match TokenCache.find (tokenCache (app_super self)) query with
  | TokenCache.FindThrows e =>
      (* thrown inside the executor *)
      Promise_reject e
  | TokenCache.FindCallsBack (Some error) _ =>
      Promise_reject error
  | TokenCache.FindCallsBack None entries =>
      match entries with
      | Some (entry :: rest) =>
          emit (CallCacheRemove (entry :: rest)) ;;;
          match TokenCache.remove (tokenCache (app_super self)) (entry :: rest) with
          | TokenCache.RemoveCallsBack _ =>
              (* the callback is [() => resolve(true)]: its arguments are ignored *)
              Promise_resolve (VBool true)
          | TokenCache.RemoveReturns =>
              (* [resolve(<return value of remove>)] *)
              Promise_resolve VUndefined
          | TokenCache.RemoveThrows e =>
              Promise_reject e
          end
      | _ => Promise_resolve (VBool true)
      end
  end.

(** The query object [{ _clientId: self.clientId }]. *)
Definition clientQuery (self : ApplicationTokenCredentials) : JsValue :=
  VObject {[ "_clientId" := VString (clientId (app_super self)) ]}.

(** The expression statement inside the rejection handler of
    [getTokenFromCache]:
    [self.removeInvalidItemsFromCache({ _clientId: self.clientId })
       .then(() => Promise.reject(error))
       .catch((reason) => Promise.reject(new Error(...)))]. *)
Definition cleanupChain (self : ApplicationTokenCredentials) (error : Error) : Promise JsValue :=
  catch_
    (then_ (removeInvalidItemsFromCache self (clientQuery self))
           (fun _ => Promise_reject error))
    (fun reason =>
       Promise_reject
         (mkError (SDK_INTERNAL_ERROR lib ++ " : "
                   ++ "critical failure while removing expired token for service principal from token cache. "
                   ++ message reason))).

(** [getTokenFromCache()]. The rejection handler has a block body that
    evaluates the clean-up chain as a statement and ends without a
    [return]: the handler's value is [undefined]. *)
Definition getTokenFromCache (self : ApplicationTokenCredentials) : Promise JsValue :=
  catch_
    (then_ (TokenCredentialsBase_getTokenFromCache (app_super self) None)
           (fun tokenResponse => Promise_resolve tokenResponse))
    (fun error =>
       cleanupChain self error ;;;
       Promise_resolve VUndefined).

(** [getToken()] *)
Definition getToken `{Dispatch} (self : ApplicationTokenCredentials) : Promise JsValue :=
  catch_
    (then_ (this_getTokenFromCache self) (fun tokenResponse => Promise_resolve tokenResponse))
    (fun error =>
       if startsWith (message error) (SDK_INTERNAL_ERROR lib) then
         Promise_reject error
       else
         let resource := getActiveDirectoryResourceId lib (app_super self) in
         emit (CallAcquireTokenWithClientCredentials resource
                 (clientId (app_super self)) (secret self)) ;;;
         ret (settleFromCallback
                (AuthenticationContext.acquireTokenWithClientCredentials
                   (authContext (app_super self)) resource
                   (clientId (app_super self)) (secret self)))).

(** The class's own method table. *)
#[local] Instance ownMethods : Dispatch := {
  this_getTokenFromCache := getTokenFromCache
}.

End Credentials.

(* ===================================================================== *)
(** * deviceTokenCredentials.ts *)
(* ===================================================================== *)

(** [if (!x) { x = d; }] for a parameter [x?: string]. *)
Definition defaulted (x : option string) (d : string) : string :=
  match x with
  | Some s => if negb (truthy (VString s)) then d else s
  | None => d
  end.

(** An optional argument is absent when it is [undefined] or empty. *)
Definition absent (x : option string) : Prop := x = None \/ x = Some "".

Section DeviceCredentials.

Variable lib : Imports.

(** [new DeviceTokenCredentials(clientId, domain, username, tokenAudience,
    environment, tokenCache)] *)
Definition DeviceTokenCredentials_new
    (clientId domain username : option string) (tokenAudience : option TokenAudience)
    (environment : option Environment) (tokenCache : option TokenCache.t)
  : Error + DeviceTokenCredentials :=
  let username := defaulted username "user@example.com" in
  let domain := defaulted domain (AAD_COMMON_TENANT lib) in
  let clientId := defaulted clientId (DEFAULT_ADAL_CLIENT_ID lib) in
  match TokenCredentialsBase_new lib clientId domain tokenAudience environment tokenCache with
  | inl e => inl e
  | inr super => inr {| dev_super := super; username := username |}
  end.

End DeviceCredentials.

(* ===================================================================== *)
(** * login: auth-file helpers *)
(* ===================================================================== *)

(** [`"${field}" is missing from the auth file: ${filePath}.`] *)
Definition missingFromAuthFile (field filePath : string) : string :=
  dquote ++ field ++ dquote ++ " is missing from the auth file: " ++ filePath ++ ".".

(** [validateAuthFileContent(credsObj, filePath)]: returns normally
    ([inr tt]) or throws. *)
Definition validateAuthFileContent (credsObj : JsValue) (filePath : string) : Error + unit :=
  if negb (truthy credsObj) then
    throw "Please provide a credsObj to validate."
  else if negb (truthy (VString filePath)) then
    throw "Please provide a filePath."
  else if negb (truthy (getProp credsObj "clientId")) then
    throw (missingFromAuthFile "clientId" filePath)
  else if negb (truthy (getProp credsObj "clientSecret")) then
    throw (missingFromAuthFile "clientSecret" filePath)
  else if negb (truthy (getProp credsObj "subscriptionId")) then
    throw (missingFromAuthFile "subscriptionId" filePath)
  else if negb (truthy (getProp credsObj "tenantId")) then
    throw (missingFromAuthFile "tenantId" filePath)
  else if negb (truthy (getProp credsObj "activeDirectoryEndpointUrl")) then
    throw (missingFromAuthFile "activeDirectoryEndpointUrl" filePath)
  else if negb (truthy (getProp credsObj "resourceManagerEndpointUrl")) then
    throw (missingFromAuthFile "resourceManagerEndpointUrl" filePath)
  else if negb (truthy (getProp credsObj "activeDirectoryGraphResourceId")) then
    throw (missingFromAuthFile "activeDirectoryGraphResourceId" filePath)
  else if negb (truthy (getProp credsObj "sqlManagementEndpointUrl")) then
    throw (missingFromAuthFile "sqlManagementEndpointUrl" filePath)
  else inr tt.

(** The seven required fields of the auth file, in the order in which
    [validateAuthFileContent] checks them. *)
Definition requiredAuthFileFields : list string :=
  [ "clientId"; "clientSecret"; "subscriptionId"; "tenantId";
    "activeDirectoryEndpointUrl"; "resourceManagerEndpointUrl";
    "activeDirectoryGraphResourceId" ].

(** [foundManagementEndpointUrl(authFileUrl, envUrl)] on string arguments. *)
Definition foundManagementEndpointUrl (authFileUrl envUrl : string) : Error + bool :=
  if negb (truthy (VString authFileUrl))
     || (truthy (VString authFileUrl) && negb (typeof_string (VString authFileUrl))) then
    throw "authFileUrl cannot be null or undefined and must be of type string."
  else if negb (truthy (VString envUrl))
          || (truthy (VString envUrl) && negb (typeof_string (VString envUrl))) then
    throw "envUrl cannot be null or undefined and must be of type string."
  else
    let authFileUrl := if endsWith authFileUrl "/" then slice_0_m1 authFileUrl else authFileUrl in
    let envUrl := if endsWith envUrl "/" then slice_0_m1 envUrl else envUrl in
    inr (String.eqb (toLowerCase authFileUrl) (toLowerCase envUrl)).

(** The comparison in the words of the specification: lowercase, then
    remove at most one trailing slash. *)
Definition spec_dropTrailingSlash (s : string) : string :=
  if endsWith s "/" then slice_0_m1 s else s.

Definition spec_normalizeUrl (s : string) : string :=
  spec_dropTrailingSlash (toLowerCase s).

Definition spec_sameManagementEndpoint (a b : string) : Prop :=
  spec_normalizeUrl a = spec_normalizeUrl b.

(* ===================================================================== *)
(** * login: the service-principal and the interactive flow *)
(* ===================================================================== *)

(** What a property of an options object can hold: a plain value or one
    of the host objects these flows pass around. The options parameters
    and the local [interactiveOptions: any = {}] are dictionaries from
    property names to such slots. *)
Inductive Slot : Type :=
| SValue (v : JsValue)
| SEnvironment (e : Environment)
| STokenCache (c : TokenCache.t)
| SContext (a : AuthenticationContext.t)
| SFunction.

(** [o.k]: an unset property reads [undefined]. *)
Definition get (o : gmap string Slot) (k : string) : Slot :=
  default (SValue VUndefined) (o !! k).

(** [o.k = s] *)
Definition set (o : gmap string Slot) (k : string) (s : Slot) : gmap string Slot :=
  <[ k := s ]> o.

Definition slotTruthy (s : Slot) : bool :=
  match s with SValue v => truthy v | _ => true end.

(** Arguments at a typed call boundary; a slot outside the declared
    parameter type reads as an absent argument. *)
Definition asString (s : Slot) : option string :=
  match s with SValue (VString x) => Some x | _ => None end.

Definition asEnvironment (s : Slot) : option Environment :=
  match s with SEnvironment e => Some e | _ => None end.

Definition asTokenCache (s : Slot) : option TokenCache.t :=
  match s with STokenCache c => Some c | _ => None end.

(** Operand of a string concatenation or a string parameter (the
    declared type of these properties is [string]). *)
Definition stringOf (s : Slot) : string := default "undefined" (asString s).

(** [x === c] for a string constant [c] *)
Definition strictEqString (s : Slot) (c : string) : bool :=
  match asString s with Some x => String.eqb x c | None => false end.

Definition isNullish (v : JsValue) : bool :=
  match v with VUndefined | VNull => true | _ => false end.

(** A property read on [undefined]. *)
Definition TypeError : Error := mkError "TypeError".

(** [{ credentials, subscriptions }] *)
Record AuthResponse (C : Type) : Type := {
  credentials : C;
  subscriptions : list JsValue
}.
Arguments credentials {C} _.
Arguments subscriptions {C} _.

Section Login.

Variable lib : Imports.

(** [withServicePrincipalSecretWithAuthResponse(clientId, secret, domain, options)] *)
Definition withServicePrincipalSecretWithAuthResponse
    (clientId secret domain : string) (options : option (gmap string Slot))
  : Promise (AuthResponse ApplicationTokenCredentials) :=
  let options := default ∅ options in
  match ApplicationTokenCredentials_new lib clientId domain secret
          (asString (get options "tokenAudience"))
          (asEnvironment (get options "environment")) None with
  | inl err => Promise_reject err
  | inr creds =>
      result <- getToken lib (H := ownMethods lib) creds ;;
      match result with
      | Rejected err => Promise_reject err
      | Fulfilled _ =>
          if negb (slotTruthy (get options "tokenAudience")
                   && strictEqString (get options "tokenAudience") (TokenAudience_graph lib)) then
            emit (CallGetSubscriptionsFromTenants [domain]) ;;;
            match getSubscriptionsFromTenants lib (app_super creds) [domain] with
            | Rejected err => Promise_reject err
            | Fulfilled subscriptionList =>
                Promise_resolve {| credentials := creds; subscriptions := subscriptionList |}
            end
          else
            Promise_resolve {| credentials := creds; subscriptions := [] |}
      end
  end.

(** The completion callback passed to [acquireTokenWithDeviceCode], inside
    the executor of the promise that resolves to the credential. *)
Definition onDeviceCodeToken
    (interactiveOptions : gmap string Slot) (reply : CallbackReply)
  : Settled DeviceTokenCredentials :=
  match cb_error reply with
  | Some error => Rejected error
  | None =>
      let tokenResponse := cb_result reply in
      if isNullish tokenResponse then Rejected TypeError else
      let interactiveOptions :=
        set interactiveOptions "username" (SValue (getProp tokenResponse "userId")) in
      let interactiveOptions :=
        set interactiveOptions "authorizationScheme" (SValue (getProp tokenResponse "tokenType")) in
      match DeviceTokenCredentials_new lib
              (asString (get interactiveOptions "clientId"))
              (asString (get interactiveOptions "domain"))
              (asString (get interactiveOptions "userName"))
              (asString (get interactiveOptions "tokenAudience"))
              (asEnvironment (get interactiveOptions "environment"))
              (asTokenCache (get interactiveOptions "tokenCache")) with
      | inl err => Rejected err
      | inr creds => Fulfilled creds
      end
  end.

(** The chain after the user code has been shown:
    [getUserCode.then(() => new Promise(...)).then(buildTenantList)
       .then(getSubscriptions).then(... { credentials, subscriptions })]. *)
Definition afterUserCode
    (interactiveOptions : gmap string Slot) (authContext : AuthenticationContext.t)
    (resource clientId : string) (userCodeResponse : JsValue)
  : Promise (AuthResponse DeviceTokenCredentials) :=
  emit (CallAcquireTokenWithDeviceCode resource clientId userCodeResponse) ;;;
  match onDeviceCodeToken interactiveOptions
          (AuthenticationContext.acquireTokenWithDeviceCode
             authContext resource clientId userCodeResponse) with
  | Rejected err => Promise_reject err
  | Fulfilled creds =>
      emit CallBuildTenantList ;;;
      match buildTenantList lib (dev_super creds) with
      | Rejected err => Promise_reject err
      | Fulfilled tenants =>
          if negb (slotTruthy (get interactiveOptions "tokenAudience")
                   && strictEqString (get interactiveOptions "tokenAudience")
                        (TokenAudience_graph lib)) then
            emit (CallGetSubscriptionsFromTenants tenants) ;;;
            match getSubscriptionsFromTenants lib (dev_super creds) tenants with
            | Rejected err => Promise_reject err
            | Fulfilled subs =>
                Promise_resolve {| credentials := creds; subscriptions := subs |}
            end
          else
            Promise_resolve {| credentials := creds; subscriptions := [] |}
      end
  end.

(** The head of [withInteractiveWithAuthResponse]: every option that is
    not given receives its default. *)
Definition defaultInteractiveOptions (options : option (gmap string Slot))
  : gmap string Slot :=
  let options := default ∅ options in
  let options :=
    if negb (slotTruthy (get options "environment"))
    then set options "environment" (SEnvironment (AzureEnvironment_Azure lib)) else options in
  let options :=
    if negb (slotTruthy (get options "domain"))
    then set options "domain" (SValue (VString (AAD_COMMON_TENANT lib))) else options in
  let options :=
    if negb (slotTruthy (get options "clientId"))
    then set options "clientId" (SValue (VString (DEFAULT_ADAL_CLIENT_ID lib))) else options in
  let options :=
    if negb (slotTruthy (get options "tokenCache"))
    then set options "tokenCache" (STokenCache (adal_MemoryCache lib)) else options in
  let options :=
    if negb (slotTruthy (get options "language"))
    then set options "language" (SValue (VString (DEFAULT_LANGUAGE lib))) else options in
  options.

(** [let interactiveOptions: any = {};] and the seven assignments that
    copy the options into it. *)
Definition copyInteractiveOptions (options : gmap string Slot) : gmap string Slot :=
  let interactiveOptions : gmap string Slot := ∅ in
  let interactiveOptions := set interactiveOptions "tokenAudience" (get options "tokenAudience") in
  let interactiveOptions := set interactiveOptions "environment" (get options "environment") in
  let interactiveOptions := set interactiveOptions "domain" (get options "domain") in
  let interactiveOptions := set interactiveOptions "clientId" (get options "clientId") in
  let interactiveOptions := set interactiveOptions "tokenCache" (get options "tokenCache") in
  let interactiveOptions := set interactiveOptions "language" (get options "language") in
  let interactiveOptions :=
    set interactiveOptions "userCodeResponseLogger" (get options "userCodeResponseLogger") in
  interactiveOptions.

(** [withInteractiveWithAuthResponse(options)] *)
Definition withInteractiveWithAuthResponse (options : option (gmap string Slot))
  : Promise (AuthResponse DeviceTokenCredentials) :=
  let options := defaultInteractiveOptions options in
  let interactiveOptions := copyInteractiveOptions options in
  match asEnvironment (get interactiveOptions "environment"),
        asTokenCache (get interactiveOptions "tokenCache") with
  | Some env, Some cache =>
      let authorityUrl := activeDirectoryEndpointUrl env ++ stringOf (get interactiveOptions "domain") in
      let authContext := adal_AuthenticationContext lib authorityUrl (validateAuthority env) cache in
      let interactiveOptions := set interactiveOptions "context" (SContext authContext) in
      let resource := activeDirectoryResourceId env in
      let clientId := stringOf (get interactiveOptions "clientId") in
      let language := stringOf (get interactiveOptions "language") in
      (* getUserCode *)
      emit (CallAcquireUserCode resource clientId language) ;;;
      let userCode := AuthenticationContext.acquireUserCode authContext resource clientId language in
      match cb_error userCode with
      | Some err => Promise_reject err
      | None =>
          let userCodeResponse := cb_result userCode in
          if isNullish userCodeResponse then Promise_reject TypeError else
          match get interactiveOptions "userCodeResponseLogger" with
          | SFunction =>
              emit (CallUserCodeResponseLogger (getProp userCodeResponse "message")) ;;;
              afterUserCode interactiveOptions authContext resource clientId userCodeResponse
          | other =>
              if slotTruthy other then Promise_reject TypeError (* called, but not a function *)
              else
                emit (CallConsoleLog (getProp userCodeResponse "message")) ;;;
                afterUserCode interactiveOptions authContext resource clientId userCodeResponse
          end
      end
  | _, _ =>
      (* an environment or cache option that is not such an object *)
      Promise_reject TypeError
  end.

End Login.

(* ===================================================================== *)
(** * Proof-side helpers and concrete scenarios *)
(* ===================================================================== *)

(** Structural readings of [endsWith(_, "/")] and [slice(0, -1)]. *)
Fixpoint lastIsSlash (s : string) : bool :=
  match s with
  | EmptyString => false
  | String c EmptyString => Ascii.eqb c "/"
  | String _ s' => lastIsSlash s'
  end.

Fixpoint dropLast (s : string) : string :=
  match s with
  | EmptyString => EmptyString
  | String _ EmptyString => EmptyString
  | String c s' => String c (dropLast s')
  end.

(** Concrete collaborators on which the statements below are exercised. *)
Module Scenario.

Definition entryNotFound : Error := mkError "Entry not found in cache.".
Definition diskFull : Error := mkError "EACCES: cannot write token cache".

Definition token (user : string) : JsValue :=
  VObject (<[ "userId" := VString user ]>
           (<[ "tokenType" := VString "Bearer" ]>
            (<[ "accessToken" := VString "eyJ0eXAi" ]> ∅))).

Definition cachedToken : JsValue := token "cached@contoso.com".
Definition freshToken : JsValue := token "alice@contoso.com".
Definition staleEntry : JsValue :=
  VObject (<[ "_clientId" := VString "client-1" ]> ∅).

(** ADAL's memory cache with nothing in it. *)
Definition emptyCache : TokenCache.t :=
  {| TokenCache.find := fun _ => TokenCache.FindCallsBack None (Some []);
     TokenCache.remove := fun _ => TokenCache.RemoveCallsBack None |}.

(** A cache holding one entry for the client, whose store refuses writes. *)
Definition throwingCache : TokenCache.t :=
  {| TokenCache.find := fun _ => TokenCache.FindCallsBack None (Some [staleEntry]);
     TokenCache.remove := fun _ => TokenCache.RemoveThrows diskFull |}.

(** The same, reporting the failure through the callback. *)
Definition failingCache : TokenCache.t :=
  {| TokenCache.find := fun _ => TokenCache.FindCallsBack None (Some [staleEntry]);
     TokenCache.remove := fun _ => TokenCache.RemoveCallsBack (Some diskFull) |}.

Definition userCode : JsValue :=
  VObject (<[ "message" := VString "To sign in, open https://aka.ms/devicelogin" ]>
           (<[ "deviceCode" := VString "D-42" ]> ∅)).

(** A context whose cache lookup misses and whose live calls succeed. *)
Definition missContext : AuthenticationContext.t :=
  {| AuthenticationContext.acquireToken := fun _ _ _ => mkReply (Some entryNotFound) VUndefined;
     AuthenticationContext.acquireTokenWithClientCredentials := fun _ _ _ => mkReply None freshToken;
     AuthenticationContext.acquireUserCode := fun _ _ _ => mkReply None userCode;
     AuthenticationContext.acquireTokenWithDeviceCode := fun _ _ _ => mkReply None freshToken |}.

(** A context whose cache lookup hits. *)
Definition hitContext : AuthenticationContext.t :=
  {| AuthenticationContext.acquireToken := fun _ _ _ => mkReply None cachedToken;
     AuthenticationContext.acquireTokenWithClientCredentials := fun _ _ _ => mkReply None freshToken;
     AuthenticationContext.acquireUserCode := fun _ _ _ => mkReply None userCode;
     AuthenticationContext.acquireTokenWithDeviceCode := fun _ _ _ => mkReply None freshToken |}.

Definition azure : Environment :=
  {| name := "Azure";
     activeDirectoryEndpointUrl := "https://login.microsoftonline.com/";
     activeDirectoryResourceId := "https://management.core.windows.net/";
     validateAuthority := true |}.

Definition lib : Imports :=
  {| SDK_INTERNAL_ERROR := "SDK_INTERNAL_ERROR";
     AAD_COMMON_TENANT := "common";
     DEFAULT_ADAL_CLIENT_ID := "04b07795-8ddb-461a-bbee-02f9e1bf7b46";
     DEFAULT_LANGUAGE := "en-us";
     TokenAudience_graph := "graph";
     AzureEnvironment_Azure := azure;
     adal_MemoryCache := emptyCache;
     adal_AuthenticationContext := fun _ _ _ => missContext;
     base_validate := fun clientId domain _ _ _ =>
       if negb (truthy (VString clientId)) then Some (mkError "clientId must be a non empty string.")
       else if negb (truthy (VString domain)) then Some (mkError "domain must be a non empty string.")
       else None;
     getActiveDirectoryResourceId := fun c => activeDirectoryResourceId (environment c);
     buildTenantList := fun _ => Fulfilled ["tenant-1"];
     getSubscriptionsFromTenants := fun _ _ => Fulfilled [] |}.

Definition credentialsWith (ctx : AuthenticationContext.t) (cache : TokenCache.t)
  : ApplicationTokenCredentials :=
  {| app_super := {| clientId := "client-1"; domain := "tenant-1"; tokenAudience := None;
                     environment := azure; tokenCache := cache; authContext := ctx |};
     secret := "s3cret" |}.

Definition missCredentials : ApplicationTokenCredentials :=
  credentialsWith missContext emptyCache.
Definition hitCredentials : ApplicationTokenCredentials :=
  credentialsWith hitContext emptyCache.
Definition staleCredentials : ApplicationTokenCredentials :=
  credentialsWith missContext throwingCache.
Definition failingCredentials : ApplicationTokenCredentials :=
  credentialsWith missContext failingCache.

(** The trace after the base class's cache lookup. *)
Definition lookupTrace : list Event :=
  [CallAcquireToken "https://management.core.windows.net/" None "client-1"].

(** A subclass whose cache lookup fails with a critical-tier error. *)
Definition criticalError : Error :=
  mkError "SDK_INTERNAL_ERROR : critical failure while removing expired token for service principal from token cache. EACCES".

Definition criticalLookup : Dispatch :=
  {| this_getTokenFromCache := fun _ => Promise_reject criticalError |}.

(** An auth-file descriptor with every field, and one lacking exactly
    [tenantId]. *)
Definition fullDescriptor : gmap string JsValue :=
  <[ "clientId" := VString "client-1" ]>
  (<[ "clientSecret" := VString "s3cret" ]>
   (<[ "subscriptionId" := VString "sub-1" ]>
    (<[ "tenantId" := VString "tenant-1" ]>
     (<[ "activeDirectoryEndpointUrl" := VString "https://login.microsoftonline.com" ]>
      (<[ "resourceManagerEndpointUrl" := VString "https://management.azure.com/" ]>
       (<[ "activeDirectoryGraphResourceId" := VString "https://graph.windows.net/" ]>
        (<[ "sqlManagementEndpointUrl" := VString "https://management.core.windows.net:8443/" ]>
         ∅))))))).

Definition withoutTenantId : gmap string JsValue := delete "tenantId" fullDescriptor.

(** The base record built for a device credential from the defaults. *)
Definition defaultBase : TokenCredentialsBase :=
  {| clientId := "04b07795-8ddb-461a-bbee-02f9e1bf7b46"; domain := "common";
     tokenAudience := None; environment := azure; tokenCache := emptyCache;
     authContext := missContext |}.

Definition defaultDeviceCredentials : DeviceTokenCredentials :=
  {| dev_super := defaultBase; username := "user@example.com" |}.

(** What the interactive flow resolves to with no options. *)
Definition interactiveResponse : AuthResponse DeviceTokenCredentials :=
  {| credentials := defaultDeviceCredentials; subscriptions := [] |}.

End Scenario.

(* ===================================================================== *)
(** * login: the public entry points *)
(* ===================================================================== *)

(** A function value handed in by the caller; only its identity matters. *)
Inductive Callback : Type := CallbackFn (id : nat).

(** The [options] argument of a public entry point: an options object, a
    function (the callback given in its place) or nothing. *)
Inductive OptionsArg : Type :=
| OptionsObject (o : gmap string Slot)
| OptionsFunction (f : Callback)
| OptionsUndefined.

(** What reaches the [...WithAuthResponse] flow as its [options]: a
    function is a truthy object without any of the option properties. *)
Definition optionsForFlow (options : OptionsArg) : option (gmap string Slot) :=
  match options with
  | OptionsObject o => Some o
  | OptionsFunction _ => Some ∅
  | OptionsUndefined => None
  end.

(** What an entry point hands back: the promise it returns, or the one
    call it makes to the callback ([cb(err)] or
    [cb(null, credentials, subscriptions)]) before returning [undefined].
    [msRest.promiseToCallback(p)(f)] calls [f(err)] when [p] is rejected
    and [f(undefined, value)] when it is fulfilled. *)
Inductive Delivered (C : Type) : Type :=
| ReturnedPromise (p : Settled C)
| CalledBackError (cb : Callback) (err : Error)
| CalledBackResult (cb : Callback) (creds : C) (subs : list JsValue).
Arguments ReturnedPromise {C} p.
Arguments CalledBackError {C} cb err.
Arguments CalledBackResult {C} cb creds subs.

Section EntryPoints.

Variable lib : Imports.

(** [withServicePrincipalSecret(clientId, secret, domain, options, callback)] *)
Definition withServicePrincipalSecret
    (clientId secret domain : string) (options : OptionsArg) (callback : option Callback)
  : M (Delivered ApplicationTokenCredentials) :=
  let '(callback, options) :=
    match callback, options with
    | None, OptionsFunction f => (Some f, OptionsUndefined)
    | _, _ => (callback, options)
    end in
  match callback with
  | None =>
      r <- catch_
             (then_ (withServicePrincipalSecretWithAuthResponse lib clientId secret domain
                       (optionsForFlow options))
                    (fun authRes => Promise_resolve (credentials authRes)))
             (fun err => Promise_reject err) ;;
      ret (ReturnedPromise r)
  | Some cb =>
      r <- withServicePrincipalSecretWithAuthResponse lib clientId secret domain
             (optionsForFlow options) ;;
      match r with
      | Rejected err => ret (CalledBackError cb err)
      | Fulfilled authRes =>
          ret (CalledBackResult cb (credentials authRes) (subscriptions authRes))
      end
  end.

(** [interactive(options, callback)] *)
Definition interactive (options : OptionsArg) (callback : option Callback)
  : M (Delivered DeviceTokenCredentials) :=
  let '(callback, options) :=
    match callback, options with
    | None, OptionsFunction f => (Some f, OptionsUndefined)
    | _, _ => (callback, options)
    end in
  match callback with
  | None =>
      r <- catch_
             (then_ (withInteractiveWithAuthResponse lib (optionsForFlow options))
                    (fun authRes => Promise_resolve (credentials authRes)))
             (fun err => Promise_reject err) ;;
      ret (ReturnedPromise r)
  | Some cb =>
      r <- withInteractiveWithAuthResponse lib (optionsForFlow options) ;;
      match r with
      | Rejected err => ret (CalledBackError cb err)
      | Fulfilled authRes =>
          ret (CalledBackResult cb (credentials authRes) (subscriptions authRes))
      end
  end.

End EntryPoints.

(* ===================================================================== *)
(** * Counting calls in a trace *)
(* ===================================================================== *)

Definition isCacheRemove (e : Event) : bool :=
  match e with CallCacheRemove _ => true | _ => false end.

Definition isSubscriptionListing (e : Event) : bool :=
  match e with CallGetSubscriptionsFromTenants _ => true | _ => false end.

Definition isTenantListing (e : Event) : bool :=
  match e with CallBuildTenantList => true | _ => false end.

Definition isDeviceCodePoll (e : Event) : bool :=
  match e with CallAcquireTokenWithDeviceCode _ _ _ => true | _ => false end.

Definition isConsoleLog (e : Event) : bool :=
  match e with CallConsoleLog _ => true | _ => false end.

Definition isUserCodeShown (e : Event) : bool :=
  match e with CallConsoleLog _ | CallUserCodeResponseLogger _ => true | _ => false end.

(** The calls [ApplicationTokenCredentials.getToken] can make as the
    code stands: the cache lookup and the two cache operations. *)
Definition isCacheTraffic (e : Event) : bool :=
  match e with
  | CallAcquireToken _ _ _ | CallCacheFind _ | CallCacheRemove _ => true
  | _ => false
  end.

(** Number of calls of one kind in a trace. *)
Definition countCalls (kind : Event -> bool) (t : list Event) : nat :=
  List.length (List.filter kind t).

(** The message of every error the clean-up chain can end with. *)
Definition criticalMessage (lib : Imports) (cause : Error) : string :=
  SDK_INTERNAL_ERROR lib ++ " : "
  ++ "critical failure while removing expired token for service principal from token cache. "
  ++ message cause.

(** The default that [withInteractiveWithAuthResponse] has for an option,
    if it has one. *)
Definition interactiveDefault (lib : Imports) (k : string) : option Slot :=
  if String.eqb k "environment" then Some (SEnvironment (AzureEnvironment_Azure lib))
  else if String.eqb k "domain" then Some (SValue (VString (AAD_COMMON_TENANT lib)))
  else if String.eqb k "clientId" then Some (SValue (VString (DEFAULT_ADAL_CLIENT_ID lib)))
  else if String.eqb k "tokenCache" then Some (STokenCache (adal_MemoryCache lib))
  else if String.eqb k "language" then Some (SValue (VString (DEFAULT_LANGUAGE lib)))
  else None.

(** Further concrete inputs. *)
Module Examples.

(** A descriptor with the seven fields of the specification but without
    [sqlManagementEndpointUrl]. *)
Definition withoutSqlEndpoint : gmap string JsValue :=
  delete "sqlManagementEndpointUrl" Scenario.fullDescriptor.

(** Options that carry nothing but a token cache. *)
Definition onlyTokenCache : gmap string Slot :=
  <[ "tokenCache" := STokenCache Scenario.throwingCache ]> ∅.

(** Options asking for the graph audience. *)
Definition graphAudience : gmap string Slot :=
  <[ "tokenAudience" := SValue (VString "graph") ]> ∅.

(** The credential the service-principal flow builds in [Scenario.lib]. *)
Definition servicePrincipal : ApplicationTokenCredentials :=
  {| app_super := {| clientId := "client-1"; domain := "tenant-1"; tokenAudience := None;
                     environment := Scenario.azure; tokenCache := Scenario.emptyCache;
                     authContext := Scenario.missContext |};
     secret := "s3cret" |}.

(** A library whose device-code service is unreachable: both the user
    code request and the device-code token request fail. *)
Definition offline : Error := mkError "getaddrinfo ENOTFOUND login.microsoftonline.com".

Definition offlineContext : AuthenticationContext.t :=
  {| AuthenticationContext.acquireToken := fun _ _ _ => mkReply (Some Scenario.entryNotFound) VUndefined;
     AuthenticationContext.acquireTokenWithClientCredentials := fun _ _ _ => mkReply (Some offline) VUndefined;
     AuthenticationContext.acquireUserCode := fun _ _ _ => mkReply (Some offline) VUndefined;
     AuthenticationContext.acquireTokenWithDeviceCode := fun _ _ _ => mkReply (Some offline) VUndefined |}.

Definition offlineLib : Imports :=
  {| SDK_INTERNAL_ERROR := "SDK_INTERNAL_ERROR";
     AAD_COMMON_TENANT := "common";
     DEFAULT_ADAL_CLIENT_ID := "04b07795-8ddb-461a-bbee-02f9e1bf7b46";
     DEFAULT_LANGUAGE := "en-us";
     TokenAudience_graph := "graph";
     AzureEnvironment_Azure := Scenario.azure;
     adal_MemoryCache := Scenario.emptyCache;
     adal_AuthenticationContext := fun _ _ _ => offlineContext;
     base_validate := fun _ _ _ _ _ => None;
     getActiveDirectoryResourceId := fun c => activeDirectoryResourceId (environment c);
     buildTenantList := fun _ => Fulfilled ["tenant-1"];
     getSubscriptionsFromTenants := fun _ _ => Fulfilled [] |}.

(** The user code is obtained, the device-code token request fails. *)
Definition expiredContext : AuthenticationContext.t :=
  {| AuthenticationContext.acquireToken := fun _ _ _ => mkReply (Some Scenario.entryNotFound) VUndefined;
     AuthenticationContext.acquireTokenWithClientCredentials := fun _ _ _ => mkReply (Some offline) VUndefined;
     AuthenticationContext.acquireUserCode := fun _ _ _ => mkReply None Scenario.userCode;
     AuthenticationContext.acquireTokenWithDeviceCode := fun _ _ _ => mkReply (Some offline) VUndefined |}.

Definition expiredLib : Imports :=
  {| SDK_INTERNAL_ERROR := "SDK_INTERNAL_ERROR";
     AAD_COMMON_TENANT := "common";
     DEFAULT_ADAL_CLIENT_ID := "04b07795-8ddb-461a-bbee-02f9e1bf7b46";
     DEFAULT_LANGUAGE := "en-us";
     TokenAudience_graph := "graph";
     AzureEnvironment_Azure := Scenario.azure;
     adal_MemoryCache := Scenario.emptyCache;
     adal_AuthenticationContext := fun _ _ _ => expiredContext;
     base_validate := fun _ _ _ _ _ => None;
     getActiveDirectoryResourceId := fun c => activeDirectoryResourceId (environment c);
     buildTenantList := fun _ => Fulfilled ["tenant-1"];
     getSubscriptionsFromTenants := fun _ _ => Fulfilled [] |}.

(** Options that supply a logger for the user code message. *)
Definition withLogger : gmap string Slot :=
  <[ "userCodeResponseLogger" := SFunction ]> ∅.

End Examples.

(* ===================================================================== *)
(** * Strings: trailing slash and lower-casing *)
(* ===================================================================== *)

Lemma endsWith_slash (s : string) : endsWith s "/" = lastIsSlash s.
Proof.
  unfold endsWith.
  induction s as [|c s IH]; [reflexivity|].
  destruct s as [|c' s'].
  - cbn. destruct (Ascii.eqb_spec c "/") as [->|Hne]; [reflexivity|].
    destruct (String.eqb_spec (String c "") "/") as [Heq|_]; [|reflexivity].
    inversion Heq; contradiction.
  - change (lastIsSlash (String c (String c' s'))) with (lastIsSlash (String c' s')).
    rewrite <- IH. cbn [String.length Nat.leb Nat.sub andb].
    rewrite Nat.sub_0_r. reflexivity.
Qed.

Lemma slice_0_m1_dropLast (s : string) : slice_0_m1 s = dropLast s.
Proof.
  unfold slice_0_m1.
  induction s as [|c s IH]; [reflexivity|].
  destruct s as [|c' s']; [reflexivity|].
  change (dropLast (String c (String c' s'))) with (String c (dropLast (String c' s'))).
  rewrite <- IH. cbn [String.length Nat.sub]. rewrite Nat.sub_0_r. reflexivity.
Qed.

Lemma toLowerCaseChar_slash (c : ascii) :
  Ascii.eqb (toLowerCaseChar c) "/" = Ascii.eqb c "/".
Proof.
  destruct c as [[] [] [] [] [] [] [] []]; vm_compute; reflexivity.
Qed.

Lemma lastIsSlash_toLowerCase (s : string) :
  lastIsSlash (toLowerCase s) = lastIsSlash s.
Proof.
  induction s as [|c s IH]; [reflexivity|].
  destruct s as [|c' s'].
  - cbn. apply toLowerCaseChar_slash.
  - exact IH.
Qed.

Lemma dropLast_toLowerCase (s : string) :
  dropLast (toLowerCase s) = toLowerCase (dropLast s).
Proof.
  induction s as [|c s IH]; [reflexivity|].
  destruct s as [|c' s']; [reflexivity|].
  change (toLowerCase (String c (String c' s')))
    with (String (toLowerCaseChar c) (String (toLowerCaseChar c') (toLowerCase s'))).
  change (dropLast (String c (String c' s'))) with (String c (dropLast (String c' s'))).
  cbn [dropLast toLowerCase] in *. rewrite <- IH. reflexivity.
Qed.

(** Dropping the slash before lower-casing (the code's order) gives the
    normal form the specification describes (lower-case first). *)
Lemma toLowerCase_dropTrailingSlash (s : string) :
  toLowerCase (if endsWith s "/" then slice_0_m1 s else s) = spec_normalizeUrl s.
Proof.
  unfold spec_normalizeUrl, spec_dropTrailingSlash.
  rewrite !endsWith_slash, !slice_0_m1_dropLast, lastIsSlash_toLowerCase, dropLast_toLowerCase.
  destruct (lastIsSlash s); reflexivity.
Qed.

Lemma truthy_VString (s : string) : truthy (VString s) = true <-> s <> "".
Proof.
  cbn. destruct (String.eqb_spec s ""); cbn; split; congruence.
Qed.

(** C7. For non-empty URL strings [foundManagementEndpointUrl] does not
    throw, and answers [true] exactly when the two strings agree after
    lower-casing and removing at most one trailing slash from each; it
    answers [true] on "HTTPS://Foo.com/" against "https://foo.com". *)
Theorem foundManagementEndpointUrl_iff (authFileUrl envUrl : string) :
  authFileUrl <> "" -> envUrl <> "" ->
  (exists b : bool, foundManagementEndpointUrl authFileUrl envUrl = inr b)
  /\ (foundManagementEndpointUrl authFileUrl envUrl = inr true
      <-> spec_sameManagementEndpoint authFileUrl envUrl)
  /\ foundManagementEndpointUrl "HTTPS://Foo.com/" "https://foo.com" = inr true.
Proof.
  intros Ha Hb.
  apply truthy_VString in Ha. apply truthy_VString in Hb.
  unfold foundManagementEndpointUrl, spec_sameManagementEndpoint.
  rewrite Ha, Hb. cbn [negb orb andb typeof_string].
  rewrite !toLowerCase_dropTrailingSlash.
  split; [eauto|]. split; [|vm_compute; reflexivity].
  split.
  - intros H. inversion H as [Heq]. now apply String.eqb_eq.
  - intros H. f_equal. now apply String.eqb_eq.
Qed.

Lemma foundManagementEndpointUrl_iff_witness :
  "HTTPS://Foo.com/" <> "" /\ "https://foo.com" <> ""
  /\ foundManagementEndpointUrl "HTTPS://Foo.com/" "https://foo.com" = inr true
  /\ spec_sameManagementEndpoint "HTTPS://Foo.com/" "https://foo.com".
Proof.
  assert (H1 : "HTTPS://Foo.com/" <> "") by discriminate.
  assert (H2 : "https://foo.com" <> "") by discriminate.
  destruct (foundManagementEndpointUrl_iff "HTTPS://Foo.com/" "https://foo.com" H1 H2)
    as (_ & Hiff & Hex).
  exact (conj H1 (conj H2 (conj Hex (proj1 Hiff Hex)))).
Defined.

(* ===================================================================== *)
(** * Auth-file validation *)
(* ===================================================================== *)

(** One check of [validateAuthFileContent]: either the field under test is
    the missing one, or it is one of the fields known to be present. *)
Ltac check_field Hbefore Hfield :=
  match goal with
  | |- (if negb (truthy (getProp _ ?f)) then _ else _) = _ =>
      first [ rewrite Hfield; reflexivity
            | rewrite (Hbefore f) by (cbn; tauto); cbn [negb] ]
  end.

(** Enumerates the positions at which [field] can sit in a concrete list
    [before ++ field :: after], running [k] at each. *)
Ltac position_of before Hsplit k :=
  destruct before as [|? before]; cbn in Hsplit;
  [ first [ discriminate Hsplit | injection Hsplit as <- <-; k ]
  | first [ discriminate Hsplit | injection Hsplit as <- Hsplit; position_of before Hsplit k ] ].

Lemma missingFromAuthFile_distinct (filePath field other : string) :
  In field requiredAuthFileFields -> In other requiredAuthFileFields ->
  other <> field ->
  missingFromAuthFile other filePath <> missingFromAuthFile field filePath.
Proof.
  unfold requiredAuthFileFields. cbn [In].
  intros Hf Ho Hne Heq.
  repeat (destruct Hf as [<-|Hf]; [|]); try contradiction;
    repeat (destruct Ho as [<-|Ho]; [|]); try contradiction;
    try (now apply Hne); cbv in Heq; discriminate Heq.
Qed.

(** C6. For a descriptor (any truthy parsed value) and a non-empty file
    path: if [field] is the first of the seven required fields, in the
    fixed check order, that the descriptor lacks, validation throws the
    error naming [field]; that message is not the one naming any other
    required field. A descriptor missing only [field] is the special case
    where every other field is present. *)
Theorem validateAuthFileContent_names_first_missing
    (credsObj : JsValue) (filePath field : string) (before after : list string) :
  truthy credsObj = true ->
  filePath <> "" ->
  requiredAuthFileFields = (before ++ field :: after)%list ->
  (forall f, In f before -> truthy (getProp credsObj f) = true) ->
  truthy (getProp credsObj field) = false ->
  validateAuthFileContent credsObj filePath
    = inl (mkError (missingFromAuthFile field filePath))
  /\ (forall other, In other requiredAuthFileFields -> other <> field ->
        missingFromAuthFile other filePath <> missingFromAuthFile field filePath).
Proof.
  intros Hobj Hpath Hsplit Hbefore Hfield.
  assert (Hin : In field requiredAuthFileFields).
  { rewrite Hsplit. apply in_or_app. right. left. reflexivity. }
  split.
  - apply truthy_VString in Hpath.
    unfold validateAuthFileContent, throw.
    rewrite Hobj, Hpath. cbn [negb].
    clear Hin. unfold requiredAuthFileFields in Hsplit.
    position_of before Hsplit ltac:(repeat check_field Hbefore Hfield).
  - intros other Ho Hne. now apply missingFromAuthFile_distinct.
Qed.

Lemma validateAuthFileContent_names_first_missing_witness :
  validateAuthFileContent (VObject Scenario.withoutTenantId) "/home/me/auth.json"
    = inl (mkError (missingFromAuthFile "tenantId" "/home/me/auth.json"))
  /\ missingFromAuthFile "clientId" "/home/me/auth.json"
       <> missingFromAuthFile "tenantId" "/home/me/auth.json".
Proof.
  assert (Hpath : "/home/me/auth.json" <> "") by discriminate.
  assert (Hsplit : requiredAuthFileFields
                   = (["clientId"; "clientSecret"; "subscriptionId"] ++ "tenantId"
                      :: ["activeDirectoryEndpointUrl"; "resourceManagerEndpointUrl";
                          "activeDirectoryGraphResourceId"])%list) by reflexivity.
  assert (Hbefore : forall f, In f ["clientId"; "clientSecret"; "subscriptionId"] ->
                      truthy (getProp (VObject Scenario.withoutTenantId) f) = true).
  { intros f [<-|[<-|[<-|[]]]]; vm_compute; reflexivity. }
  assert (Hfield : truthy (getProp (VObject Scenario.withoutTenantId) "tenantId") = false)
    by (vm_compute; reflexivity).
  destruct (validateAuthFileContent_names_first_missing
              (VObject Scenario.withoutTenantId) "/home/me/auth.json" "tenantId" _ _
              eq_refl Hpath Hsplit Hbefore Hfield) as [Hthrow Hother].
  split; [exact Hthrow|].
  apply Hother; [cbn; tauto | discriminate].
Defined.

(* ===================================================================== *)
(** * Cache-aware token retrieval *)
(* ===================================================================== *)

Lemma liveAcquisitions_app (t u : list Event) :
  liveAcquisitions (t ++ u) = liveAcquisitions t + liveAcquisitions u.
Proof.
  unfold liveAcquisitions. now rewrite List.filter_app, List.length_app.
Qed.

Lemma liveAcquisitions_snoc (t : list Event) (e : Event) :
  isLiveAcquisition e = false -> liveAcquisitions (t ++ [e]) = liveAcquisitions t.
Proof.
  intros He. rewrite liveAcquisitions_app. unfold liveAcquisitions at 2.
  cbn. rewrite He. cbn. lia.
Qed.

Lemma then_fulfilled {A B : Type} (p : Promise A) (f : A -> Promise B) t v t' :
  p t = (Fulfilled v, t') -> then_ p f t = f v t'.
Proof. intros H. unfold then_, bind. now rewrite H. Qed.

Lemma then_rejected {A B : Type} (p : Promise A) (f : A -> Promise B) t e t' :
  p t = (Rejected e, t') -> then_ p f t = (Rejected e, t').
Proof. intros H. unfold then_, bind. now rewrite H. Qed.

Lemma catch_fulfilled {A : Type} (p : Promise A) (h : Error -> Promise A) t v t' :
  p t = (Fulfilled v, t') -> catch_ p h t = (Fulfilled v, t').
Proof. intros H. unfold catch_, bind. now rewrite H. Qed.

Lemma catch_rejected {A : Type} (p : Promise A) (h : Error -> Promise A) t e t' :
  p t = (Rejected e, t') -> catch_ p h t = h e t'.
Proof. intros H. unfold catch_, bind. now rewrite H. Qed.

Lemma prefix_append (p s : string) : String.prefix p (p ++ s) = true.
Proof.
  induction p as [|a p IH]; [destruct s; reflexivity|].
  change (String a p ++ s) with (String a (p ++ s)).
  cbn [String.prefix]. destruct (ascii_dec a a); [exact IH | contradiction].
Qed.

Section Retrieval.

Variable lib : Imports.

(** [getToken] hands a fulfilled lookup through, whatever the lookup is. *)
Lemma getToken_of_fulfilled (D : Dispatch) self t t' v :
  this_getTokenFromCache self t = (Fulfilled v, t') ->
  getToken lib self t = (Fulfilled v, t').
Proof.
  intros H. unfold getToken.
  apply catch_fulfilled. now rewrite (then_fulfilled _ _ _ _ _ H).
Qed.

(** The repair never touches the live-acquisition delegate. *)
Lemma removeInvalidItemsFromCache_no_acquisition self query t :
  liveAcquisitions (snd (removeInvalidItemsFromCache self query t)) = liveAcquisitions t.
Proof.
  unfold removeInvalidItemsFromCache, bind, emit, Promise_resolve, Promise_reject, ret.
  destruct (TokenCache.find _ query) as [[err|] entries | e]; cbn [snd];
    try (now apply liveAcquisitions_snoc).
  destruct entries as [[|entry rest]|]; cbn [snd]; try (now apply liveAcquisitions_snoc).
  destruct (TokenCache.remove _ _); cbn [snd];
    rewrite liveAcquisitions_snoc by reflexivity; now apply liveAcquisitions_snoc.
Qed.

Lemma cleanupChain_no_acquisition self error t :
  liveAcquisitions (snd (cleanupChain lib self error t)) = liveAcquisitions t.
Proof.
  rewrite <- (removeInvalidItemsFromCache_no_acquisition self (clientQuery self) t).
  unfold cleanupChain, catch_, then_, bind, clientQuery.
  destruct (removeInvalidItemsFromCache self _ t) as [[v|e] t']; reflexivity.
Qed.

(** The clean-up chain always ends rejected: with the critical error when
    the repair failed, and also when it succeeded, because the rejection
    raised by its [then] callback runs into the [catch] that follows. *)
Lemma cleanupChain_rejects self error t :
  exists reason,
    fst (cleanupChain lib self error t) = Rejected reason
    /\ startsWith (message reason) (SDK_INTERNAL_ERROR lib) = true.
Proof.
  unfold cleanupChain, catch_, then_, bind, Promise_reject, ret.
  destruct (removeInvalidItemsFromCache self _ t) as [[v|e] t']; cbn [fst];
    eexists; (split; [reflexivity|]); cbn [message]; unfold startsWith;
    apply prefix_append.
Qed.

End Retrieval.

Section RetrievalClaims.

Variable lib : Imports.

Abbreviation superLookup self := (TokenCredentialsBase_getTokenFromCache lib (app_super self) None).
Abbreviation ownGetToken := (getToken lib (H := ownMethods lib)).

Lemma superLookup_no_acquisition self t :
  liveAcquisitions (snd (superLookup self t)) = liveAcquisitions t.
Proof.
  unfold TokenCredentialsBase_getTokenFromCache, bind, emit, ret. cbn [snd].
  now apply liveAcquisitions_snoc.
Qed.

Lemma getTokenFromCache_of_hit self t t0 tokenResponse :
  superLookup self t = (Fulfilled tokenResponse, t0) ->
  getTokenFromCache lib self t = (Fulfilled tokenResponse, t0).
Proof.
  intros H. unfold getTokenFromCache.
  apply catch_fulfilled. now rewrite (then_fulfilled _ _ _ _ _ H).
Qed.

(** After a failed lookup the rejection handler runs the clean-up chain,
    drops its outcome and ends without returning: the promise returned by
    [getTokenFromCache] is fulfilled with [undefined]. *)
Lemma getTokenFromCache_of_miss self t t0 error :
  superLookup self t = (Rejected error, t0) ->
  getTokenFromCache lib self t
    = (Fulfilled VUndefined, snd (cleanupChain lib self error t0)).
Proof.
  intros H. unfold getTokenFromCache.
  rewrite (catch_rejected _ _ t error t0).
  - unfold bind, Promise_resolve, ret.
    now destruct (cleanupChain lib self error t0).
  - now apply then_rejected.
Qed.

(** The class's own [getTokenFromCache] never rejects. *)
Lemma getTokenFromCache_fulfils self t :
  exists v t', getTokenFromCache lib self t = (Fulfilled v, t')
               /\ liveAcquisitions t' = liveAcquisitions t.
Proof.
  destruct (superLookup self t) as [[v|error] t0] eqn:H.
  - exists v, t0. split; [now apply getTokenFromCache_of_hit|].
    rewrite <- (superLookup_no_acquisition self t). now rewrite H.
  - exists VUndefined, (snd (cleanupChain lib self error t0)).
    split; [now apply getTokenFromCache_of_miss|].
    rewrite cleanupChain_no_acquisition.
    rewrite <- (superLookup_no_acquisition self t). now rewrite H.
Qed.

(** Hence the class's own [getToken] never reaches its live-acquisition
    branch. *)
Lemma getToken_never_acquires self t :
  exists v t', ownGetToken self t = (Fulfilled v, t')
               /\ liveAcquisitions t' = liveAcquisitions t.
Proof.
  destruct (getTokenFromCache_fulfils self t) as (v & t' & H & Hn).
  exists v, t'. split; [|exact Hn].
  now apply (getToken_of_fulfilled lib (ownMethods lib)).
Qed.

(** C1. Whatever implementation of [getTokenFromCache] the object
    carries: if that lookup rejects with an error whose message starts
    with [SDK_INTERNAL_ERROR], [getToken] rejects with the same error and
    leaves the trace exactly as the lookup left it, so it makes no
    [acquireTokenWithClientCredentials] call. *)
Theorem getToken_propagates_critical_error (D : Dispatch) self t t' error :
  this_getTokenFromCache self t = (Rejected error, t') ->
  startsWith (message error) (SDK_INTERNAL_ERROR lib) = true ->
  getToken lib self t = (Rejected error, t')
  /\ liveAcquisitions (snd (getToken lib self t)) = liveAcquisitions t'.
Proof.
  intros Hlookup Hcritical.
  assert (Hget : getToken lib self t = (Rejected error, t')).
  { unfold getToken.
    rewrite (catch_rejected _ _ t error t') by now apply then_rejected.
    now rewrite Hcritical. }
  now rewrite Hget.
Qed.

(** C5. When the cache lookup of the base class succeeds with a token
    response, [getTokenFromCache] and [getToken] are fulfilled with that
    very response, the trace is the one the lookup left, and no
    [acquireTokenWithClientCredentials] call is made. *)
Theorem getToken_returns_cached_token self t t0 tokenResponse :
  superLookup self t = (Fulfilled tokenResponse, t0) ->
  ownGetToken self t = (Fulfilled tokenResponse, t0)
  /\ liveAcquisitions t0 = liveAcquisitions t.
Proof.
  intros Hhit. split.
  - apply (getToken_of_fulfilled lib (ownMethods lib)).
    now apply getTokenFromCache_of_hit.
  - rewrite <- (superLookup_no_acquisition self t). now rewrite Hhit.
Qed.

(** C2 (what the code does). When the cache lookup of the base class
    fails, [getToken] is fulfilled with [undefined]; the trace holds the
    lookup and the clean-up only, and the number of
    [acquireTokenWithClientCredentials] calls has not changed: the
    delegate is not invoked, whatever it would have answered. *)
Theorem getToken_cache_miss_resolves_undefined self t t0 error :
  superLookup self t = (Rejected error, t0) ->
  ownGetToken self t = (Fulfilled VUndefined, snd (cleanupChain lib self error t0))
  /\ liveAcquisitions (snd (ownGetToken self t)) = liveAcquisitions t.
Proof.
  intros Hmiss.
  assert (Hget : ownGetToken self t
                 = (Fulfilled VUndefined, snd (cleanupChain lib self error t0))).
  { apply (getToken_of_fulfilled lib (ownMethods lib)).
    now apply getTokenFromCache_of_miss. }
  split; [exact Hget|].
  rewrite Hget. cbn [snd]. rewrite cleanupChain_no_acquisition.
  rewrite <- (superLookup_no_acquisition self t). now rewrite Hmiss.
Qed.

(** C3 (what the code does). The lookup fails with an ordinary error and
    [find] reports no entry: the repair resolves [true] after the single
    [find] call; but [getTokenFromCache] is then fulfilled with
    [undefined] instead of rejecting with the miss error, and [getToken]
    is fulfilled with [undefined] without any live acquisition. *)
Theorem getToken_empty_cache_miss self t t0 error :
  superLookup self t = (Rejected error, t0) ->
  startsWith (message error) (SDK_INTERNAL_ERROR lib) = false ->
  TokenCache.find (tokenCache (app_super self)) (clientQuery self)
    = TokenCache.FindCallsBack None (Some []) ->
  removeInvalidItemsFromCache self (clientQuery self) t0
    = (Fulfilled (VBool true), (t0 ++ [CallCacheFind (clientQuery self)])%list)
  /\ getTokenFromCache lib self t
     = (Fulfilled VUndefined, (t0 ++ [CallCacheFind (clientQuery self)])%list)
  /\ ownGetToken self t
     = (Fulfilled VUndefined, (t0 ++ [CallCacheFind (clientQuery self)])%list)
  /\ liveAcquisitions (t0 ++ [CallCacheFind (clientQuery self)]) = liveAcquisitions t.
Proof.
  intros Hmiss _ Hfind.
  assert (Hrepair : removeInvalidItemsFromCache self (clientQuery self) t0
                    = (Fulfilled (VBool true), (t0 ++ [CallCacheFind (clientQuery self)])%list)).
  { unfold removeInvalidItemsFromCache, bind, emit. now rewrite Hfind. }
  assert (Hchain : snd (cleanupChain lib self error t0)
                   = (t0 ++ [CallCacheFind (clientQuery self)])%list).
  { unfold cleanupChain, catch_, then_, bind. now rewrite Hrepair. }
  assert (Hcache : getTokenFromCache lib self t
                   = (Fulfilled VUndefined, (t0 ++ [CallCacheFind (clientQuery self)])%list)).
  { rewrite <- Hchain. now apply getTokenFromCache_of_miss. }
  repeat split; [exact Hrepair | exact Hcache | |].
  - now apply (getToken_of_fulfilled lib (ownMethods lib)).
  - rewrite liveAcquisitions_snoc by reflexivity.
    rewrite <- (superLookup_no_acquisition self t). now rewrite Hmiss.
Qed.

(** C4 (what the code does). The lookup fails, [find] reports entries and
    their removal fails, by throwing or through the callback. No live
    acquisition happens, but [getToken] is fulfilled with [undefined]
    rather than rejected. When [remove] throws, the critical error with
    the sentinel and the removal failure's message is built, on the
    clean-up chain whose outcome is dropped. When [remove] reports the
    failure through its callback, the callback ignores it. *)
Theorem getToken_removal_failure_swallowed self t t0 error entry rest failure :
  superLookup self t = (Rejected error, t0) ->
  TokenCache.find (tokenCache (app_super self)) (clientQuery self)
    = TokenCache.FindCallsBack None (Some (entry :: rest)) ->
  TokenCache.remove (tokenCache (app_super self)) (entry :: rest)
    = TokenCache.RemoveThrows failure
  \/ TokenCache.remove (tokenCache (app_super self)) (entry :: rest)
    = TokenCache.RemoveCallsBack (Some failure) ->
  let t1 := (t0 ++ [CallCacheFind (clientQuery self)] ++ [CallCacheRemove (entry :: rest)])%list in
  ownGetToken self t = (Fulfilled VUndefined, t1)
  /\ liveAcquisitions t1 = liveAcquisitions t
  /\ (TokenCache.remove (tokenCache (app_super self)) (entry :: rest)
        = TokenCache.RemoveThrows failure ->
      cleanupChain lib self error t0
      = (Rejected (mkError (SDK_INTERNAL_ERROR lib ++ " : "
           ++ "critical failure while removing expired token for service principal from token cache. "
           ++ message failure)), t1))
  /\ (TokenCache.remove (tokenCache (app_super self)) (entry :: rest)
        = TokenCache.RemoveCallsBack (Some failure) ->
      removeInvalidItemsFromCache self (clientQuery self) t0 = (Fulfilled (VBool true), t1)).
Proof.
  intros Hmiss Hfind Hremove t1.
  assert (Hrepair : forall r,
            TokenCache.remove (tokenCache (app_super self)) (entry :: rest) = r ->
            removeInvalidItemsFromCache self (clientQuery self) t0
            = (match r with
               | TokenCache.RemoveCallsBack _ => Fulfilled (VBool true)
               | TokenCache.RemoveReturns => Fulfilled VUndefined
               | TokenCache.RemoveThrows e => Rejected e
               end, t1)).
  { intros r Hr. unfold removeInvalidItemsFromCache, bind, emit.
    rewrite Hfind, Hr. subst t1. rewrite <- List.app_assoc.
    now destruct r. }
  assert (Htrace : snd (cleanupChain lib self error t0) = t1).
  { unfold cleanupChain, catch_, then_, bind.
    destruct Hremove as [Hr|Hr]; now rewrite (Hrepair _ Hr). }
  repeat split.
  - rewrite <- Htrace. apply (getToken_of_fulfilled lib (ownMethods lib)).
    now apply getTokenFromCache_of_miss.
  - rewrite <- Htrace, cleanupChain_no_acquisition.
    rewrite <- (superLookup_no_acquisition self t). now rewrite Hmiss.
  - intros Hr. unfold cleanupChain, catch_, then_, bind. now rewrite (Hrepair _ Hr).
  - intros Hr. now rewrite (Hrepair _ Hr).
Qed.

End RetrievalClaims.

Lemma getToken_propagates_critical_error_witness :
  getToken Scenario.lib (H := Scenario.criticalLookup) Scenario.missCredentials []
  = (Rejected Scenario.criticalError, []).
Proof.
  exact (proj1 (getToken_propagates_critical_error Scenario.lib Scenario.criticalLookup
                  Scenario.missCredentials [] [] Scenario.criticalError eq_refl eq_refl)).
Defined.

Lemma getToken_returns_cached_token_witness :
  getToken Scenario.lib (H := ownMethods Scenario.lib) Scenario.hitCredentials []
  = (Fulfilled Scenario.cachedToken, Scenario.lookupTrace).
Proof.
  exact (proj1 (getToken_returns_cached_token Scenario.lib Scenario.hitCredentials
                  [] _ Scenario.cachedToken eq_refl)).
Defined.

(** The delegate would have answered with a fresh token; it is not asked. *)
Lemma getToken_cache_miss_resolves_undefined_witness :
  AuthenticationContext.acquireTokenWithClientCredentials
    (authContext (app_super Scenario.missCredentials))
    "https://management.core.windows.net/" "client-1" "s3cret"
  = mkReply None Scenario.freshToken
  /\ fst (getToken Scenario.lib (H := ownMethods Scenario.lib) Scenario.missCredentials [])
     = Fulfilled VUndefined
  /\ liveAcquisitions
       (snd (getToken Scenario.lib (H := ownMethods Scenario.lib) Scenario.missCredentials []))
     = 0.
Proof.
  pose proof (getToken_cache_miss_resolves_undefined Scenario.lib Scenario.missCredentials
                [] _ Scenario.entryNotFound eq_refl) as [Hget Hcount].
  split; [reflexivity|]. split; [now rewrite Hget | exact Hcount].
Defined.

Lemma getToken_empty_cache_miss_witness :
  getTokenFromCache Scenario.lib Scenario.missCredentials []
  = (Fulfilled VUndefined,
     (Scenario.lookupTrace ++ [CallCacheFind (clientQuery Scenario.missCredentials)])%list)
  /\ getToken Scenario.lib (H := ownMethods Scenario.lib) Scenario.missCredentials []
     = (Fulfilled VUndefined,
        (Scenario.lookupTrace ++ [CallCacheFind (clientQuery Scenario.missCredentials)])%list).
Proof.
  pose proof (getToken_empty_cache_miss Scenario.lib Scenario.missCredentials []
                Scenario.lookupTrace Scenario.entryNotFound eq_refl eq_refl eq_refl)
    as (_ & Hcache & Hget & _).
  exact (conj Hcache Hget).
Defined.

Lemma getToken_removal_failure_swallowed_witness :
  (getToken Scenario.lib (H := ownMethods Scenario.lib) Scenario.staleCredentials []
   = (Fulfilled VUndefined,
      (Scenario.lookupTrace ++ [CallCacheFind (clientQuery Scenario.staleCredentials)]
         ++ [CallCacheRemove [Scenario.staleEntry]])%list)
   /\ cleanupChain Scenario.lib Scenario.staleCredentials Scenario.entryNotFound
        Scenario.lookupTrace
      = (Rejected (mkError ("SDK_INTERNAL_ERROR : "
           ++ "critical failure while removing expired token for service principal from token cache. "
           ++ "EACCES: cannot write token cache")),
         (Scenario.lookupTrace ++ [CallCacheFind (clientQuery Scenario.staleCredentials)]
            ++ [CallCacheRemove [Scenario.staleEntry]])%list))
  /\ (getToken Scenario.lib (H := ownMethods Scenario.lib) Scenario.failingCredentials []
      = (Fulfilled VUndefined,
         (Scenario.lookupTrace ++ [CallCacheFind (clientQuery Scenario.failingCredentials)]
            ++ [CallCacheRemove [Scenario.staleEntry]])%list)
      /\ removeInvalidItemsFromCache Scenario.failingCredentials
           (clientQuery Scenario.failingCredentials) Scenario.lookupTrace
         = (Fulfilled (VBool true),
            (Scenario.lookupTrace ++ [CallCacheFind (clientQuery Scenario.failingCredentials)]
               ++ [CallCacheRemove [Scenario.staleEntry]])%list)).
Proof.
  pose proof (getToken_removal_failure_swallowed Scenario.lib Scenario.staleCredentials []
                Scenario.lookupTrace Scenario.entryNotFound Scenario.staleEntry []
                Scenario.diskFull eq_refl eq_refl (or_introl eq_refl))
    as (Hget & _ & Hthrows & _).
  pose proof (getToken_removal_failure_swallowed Scenario.lib Scenario.failingCredentials []
                Scenario.lookupTrace Scenario.entryNotFound Scenario.staleEntry []
                Scenario.diskFull eq_refl eq_refl (or_intror eq_refl))
    as (Hget' & _ & _ & Hcallback).
  exact (conj (conj Hget (Hthrows eq_refl)) (conj Hget' (Hcallback eq_refl))).
Defined.

(* ===================================================================== *)
(** * Constructors *)
(* ===================================================================== *)

Section ConstructorClaims.

Variable lib : Imports.

(** C8. Constructing an [ApplicationTokenCredentials] with the empty
    string as secret throws the error 'secret must be a non empty string.';
    the service-principal flow, which constructs it first, is rejected
    with that error and leaves the trace of cache and network calls as it
    found it. *)
Theorem empty_secret_throws_before_any_call
    (clientId domain : string) (tokenAudience : option TokenAudience)
    (environment : option Environment) (tokenCache : option TokenCache.t)
    (options : option (gmap string Slot)) (t : list Event) :
  ApplicationTokenCredentials_new lib clientId domain "" tokenAudience environment tokenCache
    = inl (mkError "secret must be a non empty string.")
  /\ withServicePrincipalSecretWithAuthResponse lib clientId "" domain options t
     = (Rejected (mkError "secret must be a non empty string."), t).
Proof.
  split; reflexivity.
Qed.

Lemma defaulted_absent (x : option string) (d : string) :
  absent x -> defaulted x d = d.
Proof. intros [-> | ->]; reflexivity. Qed.

Lemma defaulted_present (x : option string) (d : string) :
  ~ absent x -> x = Some (defaulted x d).
Proof.
  unfold absent. destruct x as [[|c s]|]; intros H; try reflexivity; exfalso; auto.
Qed.

(** C10. The constructor of [DeviceTokenCredentials] replaces an absent
    [username] by "user@example.com", an absent [domain] by
    [AAD_COMMON_TENANT] and an absent [clientId] by
    [DEFAULT_ADAL_CLIENT_ID], in every combination, and keeps the ones
    that are given. It has no failure of its own: it throws exactly when
    the base-class constructor refuses the substituted values, and
    otherwise yields a credential that stores them. *)
Theorem DeviceTokenCredentials_new_substitutes_defaults
    (clientId_ domain_ username_ : option string) (tokenAudience_ : option TokenAudience)
    (environment_ : option Environment) (tokenCache_ : option TokenCache.t) :
  exists c d u : string,
    (absent clientId_ -> c = DEFAULT_ADAL_CLIENT_ID lib)
    /\ (~ absent clientId_ -> clientId_ = Some c)
    /\ (absent domain_ -> d = AAD_COMMON_TENANT lib)
    /\ (~ absent domain_ -> domain_ = Some d)
    /\ (absent username_ -> u = "user@example.com")
    /\ (~ absent username_ -> username_ = Some u)
    /\ match base_validate lib c d tokenAudience_ environment_ tokenCache_ with
       | Some err =>
           DeviceTokenCredentials_new lib clientId_ domain_ username_
             tokenAudience_ environment_ tokenCache_ = inl err
       | None =>
           exists creds,
             DeviceTokenCredentials_new lib clientId_ domain_ username_
               tokenAudience_ environment_ tokenCache_ = inr creds
             /\ clientId (dev_super creds) = c
             /\ domain (dev_super creds) = d
             /\ username creds = u
       end.
Proof.
  exists (defaulted clientId_ (DEFAULT_ADAL_CLIENT_ID lib)),
         (defaulted domain_ (AAD_COMMON_TENANT lib)),
         (defaulted username_ "user@example.com").
  repeat (split; [first [apply defaulted_absent | apply defaulted_present]|]).
  unfold DeviceTokenCredentials_new, TokenCredentialsBase_new.
  destruct (base_validate lib _ _ _ _ _) as [err|]; [reflexivity|].
  eexists. repeat split.
Qed.

End ConstructorClaims.

Lemma DeviceTokenCredentials_new_substitutes_defaults_witness :
  absent None /\ absent (Some "")
  /\ exists creds,
       DeviceTokenCredentials_new Scenario.lib None (Some "") None None None None = inr creds
       /\ clientId (dev_super creds) = "04b07795-8ddb-461a-bbee-02f9e1bf7b46"
       /\ domain (dev_super creds) = "common"
       /\ username creds = "user@example.com".
Proof.
  assert (Hnone : absent None) by (left; reflexivity).
  assert (Hempty : absent (Some "")) by (right; reflexivity).
  destruct (DeviceTokenCredentials_new_substitutes_defaults Scenario.lib
              None (Some "") None None None None)
    as (c & d & u & Hc & _ & Hd & _ & Hu & _ & Hnew).
  rewrite (Hc Hnone), (Hd Hempty), (Hu Hnone) in Hnew.
  exact (conj Hnone (conj Hempty Hnew)).
Defined.

(* ===================================================================== *)
(** * The interactive flow *)
(* ===================================================================== *)

Section InteractiveClaims.

Variable lib : Imports.

(** The credential built in the device-code callback reads the property
    [userName]; the token response's user was stored under [username]. *)
Lemma onDeviceCodeToken_username (interactiveOptions : gmap string Slot) reply creds :
  interactiveOptions !! "userName" = None ->
  onDeviceCodeToken lib interactiveOptions reply = Fulfilled creds ->
  username creds = "user@example.com".
Proof.
  intros Hunset. unfold onDeviceCodeToken.
  destruct (cb_error reply); [discriminate|].
  destruct (isNullish (cb_result reply)); [discriminate|].
  assert (Hget : get (set (set interactiveOptions "username"
                             (SValue (getProp (cb_result reply) "userId")))
                        "authorizationScheme"
                        (SValue (getProp (cb_result reply) "tokenType"))) "userName"
                 = SValue VUndefined).
  { unfold get, set. rewrite !lookup_insert_ne by discriminate. now rewrite Hunset. }
  rewrite Hget. unfold DeviceTokenCredentials_new.
  destruct (TokenCredentialsBase_new lib _ _ _ _ _); [discriminate|].
  intros [= <-]. reflexivity.
Qed.

Lemma afterUserCode_username (interactiveOptions : gmap string Slot)
    authContext resource clientId userCodeResponse t response :
  interactiveOptions !! "userName" = None ->
  fst (afterUserCode lib interactiveOptions authContext resource clientId userCodeResponse t)
    = Fulfilled response ->
  username (credentials response) = "user@example.com".
Proof.
  intros Hunset. unfold afterUserCode, bind, emit, Promise_reject, Promise_resolve, ret.
  destruct (onDeviceCodeToken lib interactiveOptions _) as [creds|err] eqn:Hcreds;
    [|discriminate].
  apply (onDeviceCodeToken_username _ _ _ Hunset) in Hcreds.
  destruct (buildTenantList lib _); [|discriminate].
  destruct (negb _); [destruct (getSubscriptionsFromTenants lib _ _); [|discriminate]|];
    cbn [fst]; intros [= <-]; exact Hcreds.
Qed.

(** C9 (what the code does). Whenever the interactive flow resolves, the
    credential it hands to the caller has the username
    "user@example.com", whatever [userId] the token response carries. *)
Theorem withInteractiveWithAuthResponse_username
    (options : option (gmap string Slot)) (t : list Event) response :
  fst (withInteractiveWithAuthResponse lib options t) = Fulfilled response ->
  username (credentials response) = "user@example.com".
Proof.
  unfold withInteractiveWithAuthResponse.
  generalize (defaultInteractiveOptions lib options). intros opts. cbv zeta.
  destruct (asEnvironment _) as [env|]; [|discriminate].
  destruct (asTokenCache _) as [cache|]; [|discriminate].
  unfold bind, emit, Promise_reject.
  destruct (cb_error _); [discriminate|].
  destruct (isNullish _); [discriminate|].
  assert (Hunset : forall ctx : Slot,
             set (copyInteractiveOptions opts) "context" ctx !! "userName" = None).
  { intros ctx. unfold copyInteractiveOptions, set.
    rewrite !lookup_insert_ne by discriminate. apply lookup_empty. }
  destruct (get _ "userCodeResponseLogger") as [v| | | |];
    try (destruct (slotTruthy _); [discriminate|]);
    apply afterUserCode_username; apply Hunset.
Qed.

End InteractiveClaims.

Lemma withInteractiveWithAuthResponse_username_witness :
  AuthenticationContext.acquireTokenWithDeviceCode Scenario.missContext
    "https://management.core.windows.net/" "04b07795-8ddb-461a-bbee-02f9e1bf7b46"
    Scenario.userCode = mkReply None Scenario.freshToken
  /\ getProp Scenario.freshToken "userId" = VString "alice@contoso.com"
  /\ fst (withInteractiveWithAuthResponse Scenario.lib None [])
     = Fulfilled Scenario.interactiveResponse
  /\ username (credentials Scenario.interactiveResponse) = "user@example.com".
Proof.
  assert (Hflow : fst (withInteractiveWithAuthResponse Scenario.lib None [])
                  = Fulfilled Scenario.interactiveResponse) by (vm_compute; reflexivity).
  split; [reflexivity|]. split; [vm_compute; reflexivity|]. split; [exact Hflow|].
  exact (withInteractiveWithAuthResponse_username Scenario.lib None [] _ Hflow).
Defined.

(* ===================================================================== *)
(** * Further properties: the cache repair *)
(* ===================================================================== *)

Lemma countCalls_app (kind : Event -> bool) (t u : list Event) :
  countCalls kind (t ++ u) = countCalls kind t + countCalls kind u.
Proof.
  unfold countCalls. now rewrite List.filter_app, List.length_app.
Qed.

Lemma countCalls_snoc (kind : Event -> bool) (t : list Event) (e : Event) :
  kind e = false -> countCalls kind (t ++ [e]) = countCalls kind t.
Proof.
  intros He. rewrite countCalls_app. unfold countCalls at 2.
  cbn. rewrite He. cbn. lia.
Qed.

Section RepairProperties.

Variable lib : Imports.

(** X1. [removeInvalidItemsFromCache] rejects with [e] exactly when
    [find] throws [e], or calls back with the error [e], or reports a
    non-empty list of entries whose [remove] throws [e]. An error that
    [remove] passes to its callback never rejects the repair. *)
Theorem removeInvalidItemsFromCache_rejects_iff
    (self : ApplicationTokenCredentials) (query : JsValue) (t : list Event) (e : Error) :
  fst (removeInvalidItemsFromCache self query t) = Rejected e
  <-> (TokenCache.find (tokenCache (app_super self)) query = TokenCache.FindThrows e
       \/ (exists entries,
             TokenCache.find (tokenCache (app_super self)) query
             = TokenCache.FindCallsBack (Some e) entries)
       \/ (exists entry rest,
             TokenCache.find (tokenCache (app_super self)) query
             = TokenCache.FindCallsBack None (Some (entry :: rest))
             /\ TokenCache.remove (tokenCache (app_super self)) (entry :: rest)
                = TokenCache.RemoveThrows e)).
Proof.
  unfold removeInvalidItemsFromCache, bind, emit, Promise_resolve, Promise_reject, ret.
  destruct (TokenCache.find _ query) as [[err|] entries | e0] eqn:Hfind; cbn [fst].
  - split.
    + intros [= ->]. right. left. eauto.
    + intros [H | [[es H] | (en & rs & H & _)]]; congruence.
  - destruct entries as [[|entry rest]|]; cbn [fst].
    + split; [discriminate|]. intros [H | [[es H] | (en & rs & H & _)]]; congruence.
    + destruct (TokenCache.remove _ (entry :: rest)) as [cbErr| |e1] eqn:Hremove; cbn [fst].
      * split; [discriminate|].
        intros [H | [[es H] | (en & rs & H & Hr)]]; congruence.
      * split; [discriminate|].
        intros [H | [[es H] | (en & rs & H & Hr)]]; congruence.
      * split.
        -- intros [= ->]. right. right. eauto.
        -- intros [H | [[es H] | (en & rs & H & Hr)]]; congruence.
    + split; [discriminate|]. intros [H | [[es H] | (en & rs & H & _)]]; congruence.
  - split.
    + intros [= ->]. now left.
    + intros [H | [[es H] | (en & rs & H & _)]]; congruence.
Qed.

(** X2. Every [remove] call that [removeInvalidItemsFromCache] adds to
    the trace removes exactly the non-empty list of entries that [find]
    returned for the query: nothing is removed after a failed or empty
    [find]. *)
Theorem removeInvalidItemsFromCache_removes_only_found
    (self : ApplicationTokenCredentials) (query : JsValue) (t : list Event)
    (entries : list JsValue) :
  In (CallCacheRemove entries) (snd (removeInvalidItemsFromCache self query t)) ->
  In (CallCacheRemove entries) t
  \/ (TokenCache.find (tokenCache (app_super self)) query
      = TokenCache.FindCallsBack None (Some entries)
      /\ entries <> []).
Proof.
  unfold removeInvalidItemsFromCache, bind, emit, Promise_resolve, Promise_reject, ret.
  assert (Hfind_only : In (CallCacheRemove entries) (t ++ [CallCacheFind query]) ->
                       In (CallCacheRemove entries) t).
  { intros H. apply in_app_or in H as [H|[H|[]]]; [exact H | discriminate H]. }
  destruct (TokenCache.find _ query) as [[err|] found | e0]; cbn [snd]; auto.
  destruct found as [[|entry rest]|]; cbn [snd]; auto.
  intros H.
  assert (Hin : In (CallCacheRemove entries)
                   ((t ++ [CallCacheFind query]) ++ [CallCacheRemove (entry :: rest)])).
  { destruct (TokenCache.remove _ _); exact H. }
  apply in_app_or in Hin as [Hin|[Hin|[]]]; [left; auto|].
  injection Hin as <-. right. split; [reflexivity | discriminate].
Qed.

(** X3. The clean-up chain
    [removeInvalidItemsFromCache(..).then(() => Promise.reject(error)).catch(..)]
    always ends rejected with an error whose message starts with
    [SDK_INTERNAL_ERROR]: when the repair fails the message carries the
    repair's error, and when the repair succeeds it carries the original
    lookup error, because the rejection raised in [then] is caught by the
    [catch] that follows it. *)
Theorem cleanupChain_always_rejects_critical
    (self : ApplicationTokenCredentials) (error : Error) (t : list Event) :
  exists cause : Error,
    fst (cleanupChain lib self error t) = Rejected (mkError (criticalMessage lib cause))
    /\ startsWith (criticalMessage lib cause) (SDK_INTERNAL_ERROR lib) = true
    /\ match fst (removeInvalidItemsFromCache self (clientQuery self) t) with
       | Fulfilled _ => cause = error
       | Rejected e => cause = e
       end.
Proof.
  unfold cleanupChain, catch_, then_, bind, Promise_reject, ret.
  destruct (removeInvalidItemsFromCache self (clientQuery self) t) as [[v|e] t'];
    cbn [fst]; [exists error | exists e];
    (split; [reflexivity|]); (split; [|reflexivity]);
    unfold startsWith, criticalMessage; apply prefix_append.
Qed.

(** X4. For every credential, [getTokenFromCache] and [getToken] of
    [ApplicationTokenCredentials] are fulfilled, with the same value, and
    leave the number of [acquireTokenWithClientCredentials] calls
    unchanged: the class never rejects a token request and never reaches
    its live-acquisition branch. *)
Theorem ApplicationTokenCredentials_getToken_always_fulfilled
    (self : ApplicationTokenCredentials) (t : list Event) :
  exists (v : JsValue) (t' : list Event),
    getTokenFromCache lib self t = (Fulfilled v, t')
    /\ getToken lib (H := ownMethods lib) self t = (Fulfilled v, t')
    /\ liveAcquisitions t' = liveAcquisitions t.
Proof.
  destruct (getTokenFromCache_fulfils lib self t) as (v & t' & Hcache & Hcount).
  exists v, t'. split; [exact Hcache|]. split; [|exact Hcount].
  now apply (getToken_of_fulfilled lib (ownMethods lib)).
Qed.

End RepairProperties.

Lemma removeInvalidItemsFromCache_removes_only_found_witness :
  In (CallCacheRemove [Scenario.staleEntry])
     (snd (removeInvalidItemsFromCache Scenario.staleCredentials
             (clientQuery Scenario.staleCredentials) []))
  /\ TokenCache.find (tokenCache (app_super Scenario.staleCredentials))
       (clientQuery Scenario.staleCredentials)
     = TokenCache.FindCallsBack None (Some [Scenario.staleEntry]).
Proof.
  assert (Hin : In (CallCacheRemove [Scenario.staleEntry])
                  (snd (removeInvalidItemsFromCache Scenario.staleCredentials
                          (clientQuery Scenario.staleCredentials) []))).
  { right. left. reflexivity. }
  destruct (removeInvalidItemsFromCache_removes_only_found Scenario.staleCredentials
              (clientQuery Scenario.staleCredentials) [] [Scenario.staleEntry] Hin)
    as [[]|[Hfind _]].
  exact (conj Hin Hfind).
Defined.

(* ===================================================================== *)
(** * Further properties: auth-file helpers *)
(* ===================================================================== *)

(** One check of [validateAuthFileContent] inside the acceptance
    criterion: a falsy field can neither be accepted nor be among the
    fields known to be present. *)
Ltac accept_field :=
  match goal with
  | |- (if negb (truthy (getProp ?o ?f)) then _ else _) = _ <-> _ =>
      let H := fresh "Hfield" in
      destruct (truthy (getProp o f)) eqn:H; cbn [negb];
      [ | split;
          [ discriminate
          | let Hall := fresh "Hall" in
            intros (_ & _ & Hall);
            rewrite (Hall f) in H by (cbn; tauto); discriminate H ] ]
  end.

(** X5. [validateAuthFileContent] returns normally exactly when the
    descriptor is truthy, the file path is non-empty and all eight
    fields it checks are truthy: the seven required ones and
    [sqlManagementEndpointUrl]. *)
Theorem validateAuthFileContent_accepts_iff (credsObj : JsValue) (filePath : string) :
  validateAuthFileContent credsObj filePath = inr tt
  <-> (truthy credsObj = true
       /\ filePath <> ""
       /\ forall f, In f (requiredAuthFileFields ++ ["sqlManagementEndpointUrl"])%list ->
                    truthy (getProp credsObj f) = true).
Proof.
  unfold validateAuthFileContent, throw.
  destruct (truthy credsObj) eqn:Hobj; cbn [negb];
    [|split; [discriminate | intros (H & _); discriminate H]].
  destruct (truthy (VString filePath)) eqn:Hpath; cbn [negb].
  2:{ split; [discriminate|]. intros (_ & Hne & _).
      apply truthy_VString in Hne. congruence. }
  repeat accept_field.
  split; [intros _ | reflexivity].
  split; [reflexivity|]. split; [now apply truthy_VString|].
  intros f Hin. cbn in Hin.
  repeat (destruct Hin as [<-|Hin]; [assumption|]). destruct Hin.
Qed.

(** X6. A descriptor that has the seven required fields but lacks
    [sqlManagementEndpointUrl] is refused, with the error naming
    [sqlManagementEndpointUrl]. *)
Theorem validateAuthFileContent_requires_sqlManagementEndpointUrl
    (credsObj : JsValue) (filePath : string) :
  truthy credsObj = true ->
  filePath <> "" ->
  (forall f, In f requiredAuthFileFields -> truthy (getProp credsObj f) = true) ->
  truthy (getProp credsObj "sqlManagementEndpointUrl") = false ->
  validateAuthFileContent credsObj filePath
  = inl (mkError (missingFromAuthFile "sqlManagementEndpointUrl" filePath)).
Proof.
  intros Hobj Hpath Hall Hsql.
  apply truthy_VString in Hpath.
  unfold validateAuthFileContent, throw.
  rewrite Hobj, Hpath. cbn [negb].
  repeat check_field Hall Hsql.
Qed.

Lemma validateAuthFileContent_requires_sqlManagementEndpointUrl_witness :
  validateAuthFileContent (VObject Examples.withoutSqlEndpoint) "/home/me/auth.json"
  = inl (mkError (missingFromAuthFile "sqlManagementEndpointUrl" "/home/me/auth.json")).
Proof.
  assert (Hpath : "/home/me/auth.json" <> "") by discriminate.
  assert (Hall : forall f, In f requiredAuthFileFields ->
                   truthy (getProp (VObject Examples.withoutSqlEndpoint) f) = true).
  { intros f Hin. cbn in Hin.
    repeat (destruct Hin as [<-|Hin]; [vm_compute; reflexivity|]). destruct Hin. }
  exact (validateAuthFileContent_requires_sqlManagementEndpointUrl
           (VObject Examples.withoutSqlEndpoint) "/home/me/auth.json"
           eq_refl Hpath Hall eq_refl).
Defined.

Lemma foundManagementEndpointUrl_nonempty (a b : string) :
  a <> "" -> b <> "" ->
  foundManagementEndpointUrl a b
  = inr (String.eqb (spec_normalizeUrl a) (spec_normalizeUrl b)).
Proof.
  intros Ha Hb.
  apply truthy_VString in Ha. apply truthy_VString in Hb.
  unfold foundManagementEndpointUrl.
  rewrite Ha, Hb. cbn [negb orb andb typeof_string].
  now rewrite !toLowerCase_dropTrailingSlash.
Qed.

(** X7. On non-empty strings [foundManagementEndpointUrl] is an
    equivalence: every URL matches itself, the answer does not depend on
    the order of the two arguments, and matching is transitive. *)
Theorem foundManagementEndpointUrl_equivalence (a b c : string) :
  a <> "" -> b <> "" -> c <> "" ->
  foundManagementEndpointUrl a a = inr true
  /\ foundManagementEndpointUrl a b = foundManagementEndpointUrl b a
  /\ (foundManagementEndpointUrl a b = inr true ->
      foundManagementEndpointUrl b c = inr true ->
      foundManagementEndpointUrl a c = inr true).
Proof.
  intros Ha Hb Hc.
  rewrite !foundManagementEndpointUrl_nonempty by assumption.
  split; [now rewrite String.eqb_refl|].
  split; [now rewrite String.eqb_sym|].
  intros [= Hab] [= Hbc]. f_equal.
  apply String.eqb_eq in Hab. apply String.eqb_eq in Hbc.
  apply String.eqb_eq. congruence.
Qed.

Lemma foundManagementEndpointUrl_equivalence_witness :
  foundManagementEndpointUrl "https://Management.Azure.com/" "https://management.azure.com"
  = foundManagementEndpointUrl "https://management.azure.com" "https://Management.Azure.com/"
  /\ foundManagementEndpointUrl "https://Management.Azure.com/" "HTTPS://MANAGEMENT.AZURE.COM"
     = inr true.
Proof.
  assert (Ha : "https://Management.Azure.com/" <> "") by discriminate.
  assert (Hb : "https://management.azure.com" <> "") by discriminate.
  assert (Hc : "HTTPS://MANAGEMENT.AZURE.COM" <> "") by discriminate.
  destruct (foundManagementEndpointUrl_equivalence _ _ _ Ha Hb Hc) as (_ & Hsym & Htrans).
  exact (conj Hsym (Htrans eq_refl eq_refl)).
Defined.

Lemma append_cons (c : ascii) (s t : string) : String c s ++ t = String c (s ++ t).
Proof. reflexivity. Qed.

Lemma lastIsSlash_append_slash (s : string) : lastIsSlash (s ++ "/") = true.
Proof.
  induction s as [|c s IH]; [reflexivity|].
  rewrite append_cons. destruct s as [|c' s']; [reflexivity|].
  rewrite append_cons in *. exact IH.
Qed.

Lemma dropLast_append_char (s : string) (c : ascii) : dropLast (s ++ String c "") = s.
Proof.
  induction s as [|a s IH]; [reflexivity|].
  rewrite append_cons. destruct s as [|a' s']; [reflexivity|].
  rewrite append_cons in *. cbn [dropLast] in *. now rewrite IH.
Qed.

Lemma length_toLowerCase (s : string) : String.length (toLowerCase s) = String.length s.
Proof. induction s as [|c s IH]; [reflexivity|]. cbn. now rewrite IH. Qed.

Lemma length_append_char (s : string) (c : ascii) :
  String.length (s ++ String c "") = S (String.length s).
Proof. induction s as [|a s IH]; [reflexivity|]. rewrite append_cons. cbn. now rewrite IH. Qed.

(** X8. Exactly one trailing slash is forgiven: a non-empty URL that
    does not end in a slash matches itself with one slash appended, and
    does not match itself with two slashes appended. *)
Theorem foundManagementEndpointUrl_one_slash_only (url : string) :
  url <> "" -> endsWith url "/" = false ->
  foundManagementEndpointUrl (url ++ "/") url = inr true
  /\ foundManagementEndpointUrl (url ++ "/" ++ "/") url = inr false.
Proof.
  intros Hne Hend.
  assert (H1 : url ++ "/" <> "") by (destruct url; discriminate).
  assert (H2 : url ++ "/" ++ "/" <> "") by (destruct url; discriminate).
  assert (Hself : spec_normalizeUrl url = toLowerCase url).
  { now rewrite <- toLowerCase_dropTrailingSlash, Hend. }
  assert (Hone : spec_normalizeUrl (url ++ "/") = toLowerCase url).
  { rewrite <- toLowerCase_dropTrailingSlash, endsWith_slash, lastIsSlash_append_slash.
    now rewrite slice_0_m1_dropLast, dropLast_append_char. }
  assert (Htwo : spec_normalizeUrl (url ++ "/" ++ "/") = toLowerCase (url ++ "/")).
  { change (url ++ "/" ++ "/") with (url ++ String "/" "/").
    replace (url ++ String "/" "/") with ((url ++ "/") ++ "/")
      by (clear; induction url as [|c u IH]; [reflexivity|];
          rewrite !append_cons; now rewrite IH).
    rewrite <- toLowerCase_dropTrailingSlash, endsWith_slash, lastIsSlash_append_slash.
    now rewrite slice_0_m1_dropLast, dropLast_append_char. }
  rewrite !foundManagementEndpointUrl_nonempty by assumption.
  rewrite Hself, Hone, Htwo. split; [now rewrite String.eqb_refl|].
  f_equal. apply String.eqb_neq. intros Heq.
  apply (f_equal String.length) in Heq.
  rewrite !length_toLowerCase, length_append_char in Heq. lia.
Qed.

Lemma foundManagementEndpointUrl_one_slash_only_witness :
  foundManagementEndpointUrl ("https://management.azure.com" ++ "/")
    "https://management.azure.com" = inr true
  /\ foundManagementEndpointUrl ("https://management.azure.com" ++ "/" ++ "/")
       "https://management.azure.com" = inr false.
Proof.
  assert (Hne : "https://management.azure.com" <> "") by discriminate.
  exact (foundManagementEndpointUrl_one_slash_only "https://management.azure.com"
           Hne eq_refl).
Defined.

(* ===================================================================== *)
(** * Further properties: the service-principal flow *)
(* ===================================================================== *)

Lemma countCalls_extend (kind : Event -> bool) (t extra : list Event) :
  Forall (fun e => isCacheTraffic e = true) extra ->
  (forall e, isCacheTraffic e = true -> kind e = false) ->
  countCalls kind (t ++ extra) = countCalls kind t.
Proof.
  intros Hextra Hkind. rewrite countCalls_app.
  assert (H0 : countCalls kind extra = 0); [|lia].
  unfold countCalls. induction Hextra as [|e extra He _ IH]; [reflexivity|].
  cbn. now rewrite (Hkind e He).
Qed.

Section ServicePrincipalProperties.

Variable lib : Imports.

Abbreviation spFlow := (withServicePrincipalSecretWithAuthResponse lib).

(** [options.tokenAudience && options.tokenAudience === TokenAudience.graph] *)
Abbreviation wantsGraph options :=
  (slotTruthy (get options "tokenAudience")
   && strictEqString (get options "tokenAudience") (TokenAudience_graph lib)).

(** The credential the flow constructs. *)
Abbreviation spCredentials clientId secret domain options :=
  (ApplicationTokenCredentials_new lib clientId domain secret
     (asString (get options "tokenAudience"))
     (asEnvironment (get options "environment")) None).

(** All calls of [removeInvalidItemsFromCache] are cache traffic. *)
Lemma removeInvalidItemsFromCache_traffic self query t :
  exists extra, snd (removeInvalidItemsFromCache self query t) = (t ++ extra)%list
                /\ Forall (fun e => isCacheTraffic e = true) extra.
Proof.
  unfold removeInvalidItemsFromCache, bind, emit, Promise_resolve, Promise_reject, ret.
  destruct (TokenCache.find _ query) as [[err|] entries | e]; cbn [snd];
    try (exists [CallCacheFind query]; split; [reflexivity | repeat constructor]).
  destruct entries as [[|entry rest]|]; cbn [snd];
    try (exists [CallCacheFind query]; split; [reflexivity | repeat constructor]).
  exists [CallCacheFind query; CallCacheRemove (entry :: rest)].
  split; [|repeat constructor].
  destruct (TokenCache.remove _ _); cbn [snd]; now rewrite <- List.app_assoc.
Qed.

(** All calls of the class's own [getToken] are cache traffic. *)
Lemma getToken_traffic self t :
  exists v extra,
    getToken lib (H := ownMethods lib) self t = (Fulfilled v, (t ++ extra)%list)
    /\ Forall (fun e => isCacheTraffic e = true) extra.
Proof.
  pose (lookup := CallAcquireToken (getActiveDirectoryResourceId lib (app_super self))
                    None (clientId (app_super self))).
  destruct (TokenCredentialsBase_getTokenFromCache lib (app_super self) None t)
    as [[v|error] t0] eqn:Hlookup.
  - assert (Ht0 : t0 = (t ++ [lookup])%list).
    { unfold TokenCredentialsBase_getTokenFromCache, bind, emit, ret in Hlookup.
      now injection Hlookup as _ <-. }
    exists v, [lookup]. split; [|repeat constructor].
    rewrite <- Ht0. apply (getToken_of_fulfilled lib (ownMethods lib)).
    now apply getTokenFromCache_of_hit.
  - assert (Ht0 : t0 = (t ++ [lookup])%list).
    { unfold TokenCredentialsBase_getTokenFromCache, bind, emit, ret in Hlookup.
      now injection Hlookup as _ <-. }
    destruct (removeInvalidItemsFromCache_traffic self (clientQuery self) t0)
      as (extra & Hextra & Hall).
    exists VUndefined, (lookup :: extra). split; [|now constructor].
    replace (t ++ lookup :: extra)%list with (snd (cleanupChain lib self error t0)).
    + apply (getToken_of_fulfilled lib (ownMethods lib)).
      now apply getTokenFromCache_of_miss.
    + unfold cleanupChain, catch_, then_, bind, Promise_reject, ret.
      destruct (removeInvalidItemsFromCache self (clientQuery self) t0) as [[v|e] t1];
        cbn [snd] in *; subst t1 t0; now rewrite <- List.app_assoc.
Qed.

(** What the flow does once the credential is constructed. *)
Lemma spFlow_constructed clientId secret domain options creds t :
  spCredentials clientId secret domain (default ∅ options) = inr creds ->
  exists v extra,
    Forall (fun e => isCacheTraffic e = true) extra
    /\ getToken lib (H := ownMethods lib) creds t = (Fulfilled v, (t ++ extra)%list)
    /\ spFlow clientId secret domain options t
       = if negb (wantsGraph (default ∅ options)) then
           (match getSubscriptionsFromTenants lib (app_super creds) [domain] with
            | Rejected err => Rejected err
            | Fulfilled subs => Fulfilled {| credentials := creds; subscriptions := subs |}
            end,
            ((t ++ extra) ++ [CallGetSubscriptionsFromTenants [domain]])%list)
         else (Fulfilled {| credentials := creds; subscriptions := [] |}, (t ++ extra)%list).
Proof.
  intros Hnew.
  destruct (getToken_traffic creds t) as (v & extra & Hget & Hall).
  exists v, extra. split; [exact Hall|]. split; [exact Hget|].
  unfold withServicePrincipalSecretWithAuthResponse.
  rewrite Hnew. unfold bind at 1. rewrite Hget.
  destruct (negb _); [|reflexivity].
  unfold bind, emit, Promise_reject, Promise_resolve, ret.
  now destruct (getSubscriptionsFromTenants lib _ _).
Qed.

(** X9. The service-principal flow reads only [tokenAudience] and
    [environment] from its options: two option objects that agree on
    these give the same outcome and the same calls. In particular
    [options.tokenCache] has no effect. *)
Theorem withServicePrincipalSecretWithAuthResponse_reads_two_options
    (clientId secret domain : string) (options1 options2 : gmap string Slot)
    (t : list Event) :
  get options1 "tokenAudience" = get options2 "tokenAudience" ->
  get options1 "environment" = get options2 "environment" ->
  spFlow clientId secret domain (Some options1) t
  = spFlow clientId secret domain (Some options2) t.
Proof.
  intros Haudience Henvironment.
  unfold withServicePrincipalSecretWithAuthResponse. cbn [default from_option id].
  now rewrite Haudience, Henvironment.
Qed.

(** X10. With the graph audience the flow never lists subscriptions: if
    it resolves, [subscriptions] is empty and the number of
    [getSubscriptionsFromTenants] calls has not changed. *)
Theorem withServicePrincipalSecretWithAuthResponse_graph
    (clientId secret domain : string) (options : gmap string Slot)
    (t t' : list Event) (response : AuthResponse ApplicationTokenCredentials) :
  TokenAudience_graph lib <> "" ->
  get options "tokenAudience" = SValue (VString (TokenAudience_graph lib)) ->
  spFlow clientId secret domain (Some options) t = (Fulfilled response, t') ->
  subscriptions response = []
  /\ countCalls isSubscriptionListing t' = countCalls isSubscriptionListing t.
Proof.
  intros Hgraph Haudience Hflow.
  assert (Hwants : wantsGraph options = true).
  { rewrite Haudience. unfold strictEqString. cbn.
    rewrite String.eqb_refl. destruct (String.eqb_spec (TokenAudience_graph lib) "");
      [contradiction | reflexivity]. }
  destruct (spCredentials clientId secret domain options) as [err|creds] eqn:Hnew.
  - unfold withServicePrincipalSecretWithAuthResponse in Hflow.
    cbn [default from_option id] in Hflow. rewrite Hnew in Hflow. discriminate Hflow.
  - destruct (spFlow_constructed clientId secret domain (Some options) creds t Hnew)
      as (v & extra & Hall & _ & Hrun).
    cbn [default from_option id] in Hrun. rewrite Hwants in Hrun. cbn [negb] in Hrun.
    rewrite Hrun in Hflow. injection Hflow as <- <-.
    split; [reflexivity|]. now apply countCalls_extend; [|intros []].
Qed.

(** X11. With any other audience a resolved flow has asked for the
    subscriptions of exactly one tenant, the [domain] argument, as its
    last call, and hands over what that call returned. *)
Theorem withServicePrincipalSecretWithAuthResponse_lists_domain
    (clientId secret domain : string) (options : option (gmap string Slot))
    (t t' : list Event) (response : AuthResponse ApplicationTokenCredentials) :
  asString (get (default ∅ options) "tokenAudience") <> Some (TokenAudience_graph lib) ->
  spFlow clientId secret domain options t = (Fulfilled response, t') ->
  getSubscriptionsFromTenants lib (app_super (credentials response)) [domain]
  = Fulfilled (subscriptions response)
  /\ (exists t1, t' = (t1 ++ [CallGetSubscriptionsFromTenants [domain]])%list)
  /\ countCalls isSubscriptionListing t' = S (countCalls isSubscriptionListing t).
Proof.
  intros Hother Hflow.
  assert (Hwants : wantsGraph (default ∅ options) = false).
  { unfold strictEqString.
    destruct (asString (get (default ∅ options) "tokenAudience")) as [x|];
      [|apply andb_false_r].
    destruct (String.eqb_spec x (TokenAudience_graph lib)) as [->|_];
      [contradiction | apply andb_false_r]. }
  destruct (spCredentials clientId secret domain (default ∅ options)) as [err|creds] eqn:Hnew.
  - unfold withServicePrincipalSecretWithAuthResponse in Hflow.
    rewrite Hnew in Hflow. discriminate Hflow.
  - destruct (spFlow_constructed clientId secret domain options creds t Hnew)
      as (v & extra & Hall & _ & Hrun).
    rewrite Hwants in Hrun. cbn [negb] in Hrun. rewrite Hrun in Hflow.
    destruct (getSubscriptionsFromTenants lib (app_super creds) [domain]) as [subs|err] eqn:Hsubs;
      [|discriminate Hflow].
    injection Hflow as <- <-. cbn [credentials subscriptions].
    split; [exact Hsubs|]. split; [eauto|].
    rewrite countCalls_app, (countCalls_extend _ _ _ Hall) by now intros [].
    cbn. lia.
Qed.

(** X12. The flow is rejected with [err] exactly when the constructor
    throws [err] or, for an audience other than graph, the subscription
    listing is rejected with [err]. A failed token request is never a
    reason: [getToken] does not reject. *)
Theorem withServicePrincipalSecretWithAuthResponse_rejects_iff
    (clientId secret domain : string) (options : option (gmap string Slot))
    (t : list Event) (err : Error) :
  fst (spFlow clientId secret domain options t) = Rejected err
  <-> (spCredentials clientId secret domain (default ∅ options) = inl err
       \/ exists creds,
            spCredentials clientId secret domain (default ∅ options) = inr creds
            /\ wantsGraph (default ∅ options) = false
            /\ getSubscriptionsFromTenants lib (app_super creds) [domain] = Rejected err).
Proof.
  destruct (spCredentials clientId secret domain (default ∅ options)) as [e|creds] eqn:Hnew.
  - unfold withServicePrincipalSecretWithAuthResponse. rewrite Hnew. cbn.
    split.
    + intros [= ->]. now left.
    + intros [[= ->]|(c & Hc & _)]; [reflexivity | discriminate Hc].
  - destruct (spFlow_constructed clientId secret domain options creds t Hnew)
      as (v & extra & _ & _ & Hrun).
    rewrite Hrun. clear Hrun.
    destruct (wantsGraph (default ∅ options)); cbn [negb fst].
    + split; [discriminate|]. intros [H|(c & _ & H & _)]; discriminate H.
    + destruct (getSubscriptionsFromTenants lib (app_super creds) [domain]) as [subs|e] eqn:Hs.
      * split; [discriminate|].
        intros [H|(c & [= <-] & _ & H)]; [discriminate H | congruence].
      * split.
        -- intros [= ->]. right. exists creds. auto.
        -- intros [H|(c & [= <-] & _ & H)]; [discriminate H | congruence].
Qed.

(** X13. The service-principal flow never calls
    [acquireTokenWithClientCredentials]. *)
Theorem withServicePrincipalSecretWithAuthResponse_never_acquires
    (clientId secret domain : string) (options : option (gmap string Slot))
    (t : list Event) :
  liveAcquisitions (snd (spFlow clientId secret domain options t)) = liveAcquisitions t.
Proof.
  destruct (spCredentials clientId secret domain (default ∅ options)) as [e|creds] eqn:Hnew.
  - unfold withServicePrincipalSecretWithAuthResponse. now rewrite Hnew.
  - destruct (spFlow_constructed clientId secret domain options creds t Hnew)
      as (v & extra & Hall & _ & Hrun).
    rewrite Hrun. clear Hrun.
    assert (Hextra : liveAcquisitions (t ++ extra) = liveAcquisitions t).
    { apply (countCalls_extend isLiveAcquisition); [exact Hall | now intros []]. }
    destruct (negb _); cbn [snd]; [|exact Hextra].
    now rewrite liveAcquisitions_snoc.
Qed.

End ServicePrincipalProperties.

Lemma withServicePrincipalSecretWithAuthResponse_reads_two_options_witness :
  withServicePrincipalSecretWithAuthResponse Scenario.lib "client-1" "s3cret" "tenant-1"
    (Some Examples.onlyTokenCache) []
  = withServicePrincipalSecretWithAuthResponse Scenario.lib "client-1" "s3cret" "tenant-1"
      (Some ∅) [].
Proof.
  exact (withServicePrincipalSecretWithAuthResponse_reads_two_options Scenario.lib
           "client-1" "s3cret" "tenant-1" Examples.onlyTokenCache ∅ [] eq_refl eq_refl).
Defined.

Lemma withServicePrincipalSecretWithAuthResponse_graph_witness :
  fst (withServicePrincipalSecretWithAuthResponse Scenario.lib "client-1" "s3cret" "tenant-1"
         (Some Examples.graphAudience) [])
  = Fulfilled {| credentials :=
                   {| app_super :=
                        {| clientId := "client-1"; domain := "tenant-1";
                           tokenAudience := Some "graph"; environment := Scenario.azure;
                           tokenCache := Scenario.emptyCache;
                           authContext := Scenario.missContext |};
                      secret := "s3cret" |};
                 subscriptions := [] |}
  /\ countCalls isSubscriptionListing
       (snd (withServicePrincipalSecretWithAuthResponse Scenario.lib "client-1" "s3cret"
               "tenant-1" (Some Examples.graphAudience) [])) = 0.
Proof.
  assert (Hgraph : TokenAudience_graph Scenario.lib <> "") by discriminate.
  destruct (withServicePrincipalSecretWithAuthResponse_graph Scenario.lib
              "client-1" "s3cret" "tenant-1" Examples.graphAudience [] _ _
              Hgraph eq_refl eq_refl) as [_ Hcount].
  split; [reflexivity | exact Hcount].
Defined.

Lemma withServicePrincipalSecretWithAuthResponse_lists_domain_witness :
  getSubscriptionsFromTenants Scenario.lib (app_super Examples.servicePrincipal) ["tenant-1"]
  = Fulfilled []
  /\ countCalls isSubscriptionListing
       (snd (withServicePrincipalSecretWithAuthResponse Scenario.lib "client-1" "s3cret"
               "tenant-1" None [])) = 1.
Proof.
  assert (Hother : asString (get (default ∅ None) "tokenAudience")
                   <> Some (TokenAudience_graph Scenario.lib)) by discriminate.
  destruct (withServicePrincipalSecretWithAuthResponse_lists_domain Scenario.lib
              "client-1" "s3cret" "tenant-1" None []
              _ {| credentials := Examples.servicePrincipal; subscriptions := [] |}
              Hother eq_refl) as (Hsubs & _ & Hcount).
  exact (conj Hsubs Hcount).
Defined.

(* ===================================================================== *)
(** * Further properties: the interactive flow *)
(* ===================================================================== *)

(** Reading a key after a conditional assignment [if (b) { o.k' = d; }]. *)
Lemma get_conditional_set (o : gmap string Slot) (b : bool) (k' k : string) (d : Slot) :
  get (if b then set o k' d else o) k
  = if b && String.eqb k k' then d else get o k.
Proof.
  destruct b; cbn [andb]; [|reflexivity].
  unfold get, set. destruct (String.eqb_spec k k') as [->|Hne].
  - now rewrite lookup_insert_eq.
  - rewrite lookup_insert_ne by congruence. reflexivity.
Qed.

Ltac split_truthy o :=
  repeat match goal with
         | |- context [slotTruthy (get o ?x)] =>
             let H := fresh "Htruthy" in destruct (slotTruthy (get o x)) eqn:H
         end.

Section InteractiveProperties.

Variable lib : Imports.

Lemma get_defaultInteractiveOptions (options : option (gmap string Slot)) (k : string) :
  get (defaultInteractiveOptions lib options) k
  = if slotTruthy (get (default ∅ options) k) then get (default ∅ options) k
    else default (get (default ∅ options) k) (interactiveDefault lib k).
Proof.
  unfold defaultInteractiveOptions. cbv zeta.
  generalize (default ∅ options). intros o.
  rewrite !get_conditional_set. unfold interactiveDefault.
  destruct (String.eqb_spec k "language") as [->|_];
    [cbn; rewrite ?andb_false_r, ?andb_true_r; cbn; split_truthy o; cbn; congruence|].
  destruct (String.eqb_spec k "tokenCache") as [->|_];
    [cbn; rewrite ?andb_false_r, ?andb_true_r; cbn; split_truthy o; cbn; congruence|].
  destruct (String.eqb_spec k "clientId") as [->|_];
    [cbn; rewrite ?andb_false_r, ?andb_true_r; cbn; split_truthy o; cbn; congruence|].
  destruct (String.eqb_spec k "domain") as [->|_];
    [cbn; rewrite ?andb_false_r, ?andb_true_r; cbn; split_truthy o; cbn; congruence|].
  destruct (String.eqb_spec k "environment") as [->|_];
    [cbn; rewrite ?andb_false_r, ?andb_true_r; cbn; split_truthy o; cbn; congruence|].
  rewrite !andb_false_r. now destruct (slotTruthy (get o k)).
Qed.

(** X14. The defaulting at the head of the interactive flow never
    overwrites an option the caller gave (a truthy one), puts the default
    in place of each absent option that has one ([environment], [domain],
    [clientId], [tokenCache], [language]) and leaves every other property
    as it was; the result does not depend on the order of the five
    steps. *)
Theorem defaultInteractiveOptions_per_key
    (options : option (gmap string Slot)) (k : string) :
  (slotTruthy (get (default ∅ options) k) = true ->
   get (defaultInteractiveOptions lib options) k = get (default ∅ options) k)
  /\ (forall d, slotTruthy (get (default ∅ options) k) = false ->
                interactiveDefault lib k = Some d ->
                get (defaultInteractiveOptions lib options) k = d)
  /\ (interactiveDefault lib k = None ->
      get (defaultInteractiveOptions lib options) k = get (default ∅ options) k).
Proof.
  rewrite get_defaultInteractiveOptions. repeat split.
  - now intros ->.
  - now intros d -> ->.
  - intros ->. now destruct (slotTruthy _).
Qed.

(** The calls of the chain that follows the user code. *)
Lemma afterUserCode_calls interactiveOptions authContext resource clientId userCode t :
  exists extra,
    snd (afterUserCode lib interactiveOptions authContext resource clientId userCode t)
    = (t ++ extra)%list
    /\ Forall (fun e => isDeviceCodePoll e || isTenantListing e || isSubscriptionListing e = true)
         extra.
Proof.
  unfold afterUserCode, bind, emit, Promise_reject, Promise_resolve, ret.
  set (poll := CallAcquireTokenWithDeviceCode resource clientId userCode).
  destruct (onDeviceCodeToken lib interactiveOptions _) as [creds|err]; cbn [snd];
    [|exists [poll]; split; [reflexivity | repeat constructor]].
  destruct (buildTenantList lib _) as [tenants|err]; cbn [snd];
    [|exists [poll; CallBuildTenantList]; split;
      [now rewrite <- List.app_assoc | repeat constructor]].
  destruct (negb _); cbn [snd];
    [|exists [poll; CallBuildTenantList]; split;
      [now rewrite <- List.app_assoc | repeat constructor]].
  exists [poll; CallBuildTenantList; CallGetSubscriptionsFromTenants tenants].
  split; [|repeat constructor].
  destruct (getSubscriptionsFromTenants lib _ _); cbn [snd];
    now rewrite <- !List.app_assoc.
Qed.

Lemma countCalls_unrelated (kind other : Event -> bool) (t extra : list Event) :
  Forall (fun e => other e = true) extra ->
  (forall e, other e = true -> kind e = false) ->
  countCalls kind (t ++ extra) = countCalls kind t.
Proof.
  intros Hextra Hkind. rewrite countCalls_app.
  assert (H0 : countCalls kind extra = 0); [|lia].
  unfold countCalls. induction Hextra as [|e extra He _ IH]; [reflexivity|].
  cbn. now rewrite (Hkind e He).
Qed.

(** When the device-code token request fails, the chain stops there. *)
Lemma afterUserCode_failed interactiveOptions authContext resource clientId userCode t err :
  cb_error (AuthenticationContext.acquireTokenWithDeviceCode authContext resource clientId userCode)
  = Some err ->
  afterUserCode lib interactiveOptions authContext resource clientId userCode t
  = (Rejected err, (t ++ [CallAcquireTokenWithDeviceCode resource clientId userCode])%list).
Proof.
  intros Hfail. unfold afterUserCode, onDeviceCodeToken, bind, emit.
  now rewrite Hfail.
Qed.

(** X15. If the user code request fails with [err], the flow is rejected
    (with [err], or with a type error when the [environment] or
    [tokenCache] option is not such an object), no user code message is
    shown and no device-code token request is made. *)
Theorem withInteractiveWithAuthResponse_user_code_failure
    (options : option (gmap string Slot)) (t : list Event) (err : Error) :
  (forall authority validate cache resource clientId language,
     cb_error (AuthenticationContext.acquireUserCode
                 (adal_AuthenticationContext lib authority validate cache)
                 resource clientId language) = Some err) ->
  (fst (withInteractiveWithAuthResponse lib options t) = Rejected err
   \/ fst (withInteractiveWithAuthResponse lib options t) = Rejected TypeError)
  /\ countCalls isUserCodeShown (snd (withInteractiveWithAuthResponse lib options t))
     = countCalls isUserCodeShown t
  /\ countCalls isDeviceCodePoll (snd (withInteractiveWithAuthResponse lib options t))
     = countCalls isDeviceCodePoll t.
Proof.
  intros Hfail. unfold withInteractiveWithAuthResponse.
  generalize (defaultInteractiveOptions lib options). intros opts. cbv zeta.
  destruct (asEnvironment _) as [env|]; [|cbn; auto].
  destruct (asTokenCache _) as [cache|]; [|cbn; auto].
  unfold bind, emit, Promise_reject, ret. rewrite Hfail. cbn [fst snd].
  split; [now left|]. split; now apply countCalls_snoc.
Qed.

(** X16. If the device-code token request fails, the flow is rejected
    and neither the tenants nor the subscriptions are listed; the token
    request is made at most once. *)
Theorem withInteractiveWithAuthResponse_device_code_failure
    (options : option (gmap string Slot)) (t : list Event) (err : Error) :
  (forall authority validate cache resource clientId userCode,
     cb_error (AuthenticationContext.acquireTokenWithDeviceCode
                 (adal_AuthenticationContext lib authority validate cache)
                 resource clientId userCode) = Some err) ->
  (exists e, fst (withInteractiveWithAuthResponse lib options t) = Rejected e)
  /\ countCalls isTenantListing (snd (withInteractiveWithAuthResponse lib options t))
     = countCalls isTenantListing t
  /\ countCalls isSubscriptionListing (snd (withInteractiveWithAuthResponse lib options t))
     = countCalls isSubscriptionListing t
  /\ countCalls isDeviceCodePoll (snd (withInteractiveWithAuthResponse lib options t))
     <= S (countCalls isDeviceCodePoll t).
Proof.
  intros Hfail.
  destruct (withInteractiveWithAuthResponse lib options t) as [r u] eqn:Hrun.
  cbn [fst snd]. revert Hrun. unfold withInteractiveWithAuthResponse.
  generalize (defaultInteractiveOptions lib options). intros opts. cbv zeta.
  assert (Hstop : forall (e : Error) (u' : list Event),
            (forall kind, countCalls kind u' = countCalls kind t) ->
            (@Rejected (AuthResponse DeviceTokenCredentials) e, u') = (r, u) ->
            (exists e', r = Rejected e')
            /\ countCalls isTenantListing u = countCalls isTenantListing t
            /\ countCalls isSubscriptionListing u = countCalls isSubscriptionListing t
            /\ countCalls isDeviceCodePoll u <= S (countCalls isDeviceCodePoll t)).
  { intros e u' Hu [= <- <-]. rewrite !Hu. eauto 6. }
  destruct (asEnvironment _) as [env|]; [|now apply Hstop].
  destruct (asTokenCache _) as [cache|]; [|now apply Hstop].
  unfold bind, emit, Promise_reject, ret.
  set (shown := CallAcquireUserCode _ _ _).
  assert (Hshown : forall kind, kind shown = false ->
                     countCalls kind (t ++ [shown]) = countCalls kind t)
    by (intros kind Hk; now apply countCalls_snoc).
  assert (Hstop' : forall e : Error,
            (@Rejected (AuthResponse DeviceTokenCredentials) e, (t ++ [shown])%list) = (r, u) ->
            (exists e', r = Rejected e')
            /\ countCalls isTenantListing u = countCalls isTenantListing t
            /\ countCalls isSubscriptionListing u = countCalls isSubscriptionListing t
            /\ countCalls isDeviceCodePoll u <= S (countCalls isDeviceCodePoll t)).
  { intros e [= <- <-]. rewrite !Hshown by reflexivity. eauto 6. }
  destruct (cb_error _) as [e|]; [apply Hstop'|].
  destruct (isNullish _); [apply Hstop'|].
  destruct (get _ "userCodeResponseLogger") as [v| | | |];
    try (destruct (slotTruthy _); [apply Hstop'|]);
    rewrite (afterUserCode_failed _ _ _ _ _ _ err) by apply Hfail;
    intros [= <- <-]; rewrite !countCalls_app;
    cbn; (split; [eauto|]); lia.
Qed.

(** X17. When the caller supplies [userCodeResponseLogger], the flow
    never writes the user code message to the console. *)
Theorem withInteractiveWithAuthResponse_logger_replaces_console
    (options : gmap string Slot) (t : list Event) :
  get options "userCodeResponseLogger" = SFunction ->
  countCalls isConsoleLog (snd (withInteractiveWithAuthResponse lib (Some options) t))
  = countCalls isConsoleLog t.
Proof.
  intros Hlogger. unfold withInteractiveWithAuthResponse. cbv zeta.
  assert (Hkept : forall ctx : Slot,
             get (set (copyInteractiveOptions (defaultInteractiveOptions lib (Some options)))
                    "context" ctx) "userCodeResponseLogger" = SFunction).
  { intros ctx. unfold copyInteractiveOptions, get at 1, set.
    rewrite lookup_insert_ne by discriminate. rewrite lookup_insert_eq. cbn [default from_option id].
    rewrite get_defaultInteractiveOptions. cbn [default from_option id].
    now rewrite Hlogger. }
  destruct (asEnvironment _) as [env|]; [|reflexivity].
  destruct (asTokenCache _) as [cache|]; [|reflexivity].
  unfold bind at 1, emit at 1.
  destruct (cb_error _) as [e|]; [now apply countCalls_snoc|].
  destruct (isNullish _); [now apply countCalls_snoc|].
  rewrite Hkept. unfold bind at 1, emit at 1.
  match goal with
  | |- context [afterUserCode lib ?io ?ctx ?r ?c ?u ?t0] =>
      destruct (afterUserCode_calls io ctx r c u t0) as (extra & -> & Hextra)
  end.
  rewrite (countCalls_unrelated _ _ _ _ Hextra) by now intros [].
  rewrite !countCalls_snoc by reflexivity. reflexivity.
Qed.

End InteractiveProperties.

Lemma withInteractiveWithAuthResponse_user_code_failure_witness :
  withInteractiveWithAuthResponse Examples.offlineLib None []
  = (Rejected Examples.offline,
     [CallAcquireUserCode "https://management.core.windows.net/"
        "04b07795-8ddb-461a-bbee-02f9e1bf7b46" "en-us"])
  /\ countCalls isDeviceCodePoll (snd (withInteractiveWithAuthResponse Examples.offlineLib None []))
     = 0.
Proof.
  destruct (withInteractiveWithAuthResponse_user_code_failure Examples.offlineLib None []
              Examples.offline (fun _ _ _ _ _ _ => eq_refl)) as (_ & _ & Hpoll).
  split; [vm_compute; reflexivity | exact Hpoll].
Defined.

Lemma withInteractiveWithAuthResponse_device_code_failure_witness :
  fst (withInteractiveWithAuthResponse Examples.expiredLib None []) = Rejected Examples.offline
  /\ countCalls isTenantListing (snd (withInteractiveWithAuthResponse Examples.expiredLib None []))
     = 0.
Proof.
  destruct (withInteractiveWithAuthResponse_device_code_failure Examples.expiredLib None []
              Examples.offline (fun _ _ _ _ _ _ => eq_refl)) as (_ & Htenants & _).
  split; [vm_compute; reflexivity | exact Htenants].
Defined.

Lemma withInteractiveWithAuthResponse_logger_replaces_console_witness :
  countCalls isConsoleLog
    (snd (withInteractiveWithAuthResponse Scenario.lib (Some Examples.withLogger) [])) = 0
  /\ countCalls isUserCodeShown
       (snd (withInteractiveWithAuthResponse Scenario.lib (Some Examples.withLogger) [])) = 1.
Proof.
  split; [|vm_compute; reflexivity].
  exact (withInteractiveWithAuthResponse_logger_replaces_console Scenario.lib
           Examples.withLogger [] eq_refl).
Defined.

(* ===================================================================== *)
(** * Further properties: the two calling conventions *)
(* ===================================================================== *)

Section EntryPointProperties.

Variable lib : Imports.

(** X18. [withServicePrincipalSecret] makes the same calls in its
    promise form and in its callback form. The callback receives an
    error exactly when the promise is rejected with that error, and
    receives a credential (beside the subscriptions) exactly when the
    promise is fulfilled with that credential. A callback passed in the
    place of [options] is treated as the callback, with no options. *)
Theorem withServicePrincipalSecret_forms_agree
    (clientId secret domain : string) (options : OptionsArg) (cb : Callback)
    (t : list Event) :
  (forall f, options <> OptionsFunction f) ->
  snd (withServicePrincipalSecret lib clientId secret domain options None t)
  = snd (withServicePrincipalSecret lib clientId secret domain options (Some cb) t)
  /\ (forall e,
        fst (withServicePrincipalSecret lib clientId secret domain options None t)
        = ReturnedPromise (Rejected e)
        <-> fst (withServicePrincipalSecret lib clientId secret domain options (Some cb) t)
            = CalledBackError cb e)
  /\ (forall creds,
        fst (withServicePrincipalSecret lib clientId secret domain options None t)
        = ReturnedPromise (Fulfilled creds)
        <-> exists subs,
              fst (withServicePrincipalSecret lib clientId secret domain options (Some cb) t)
              = CalledBackResult cb creds subs)
  /\ withServicePrincipalSecret lib clientId secret domain (OptionsFunction cb) None t
     = withServicePrincipalSecret lib clientId secret domain OptionsUndefined (Some cb) t.
Proof.
  intros Hobject.
  assert (Hshape : options = OptionsUndefined \/ exists o, options = OptionsObject o).
  { destruct options as [o|f|]; [eauto | now destruct (Hobject f) | auto]. }
  split; [|split; [|split; [|reflexivity]]];
    destruct Hshape as [->|[o ->]];
    unfold withServicePrincipalSecret, catch_, then_, bind, Promise_resolve, Promise_reject, ret;
    destruct (withServicePrincipalSecretWithAuthResponse lib _ _ _ _ t) as [[authRes|err] t'];
    cbn [fst snd]; try reflexivity; intros x; split;
    try discriminate; try (intros [= ->]; eauto); try (intros [subs [= ->]]; reflexivity);
    try (intros [subs H]; discriminate H).
Qed.

(** X19. [interactive] makes the same calls in its promise form and in
    its callback form. The callback receives an error exactly when the
    promise is rejected with that error, and receives a credential
    (beside the subscriptions) exactly when the promise is fulfilled
    with that credential. A callback passed in the place of [options] is
    treated as the callback, with no options. *)
Theorem interactive_forms_agree (options : OptionsArg) (cb : Callback) (t : list Event) :
  (forall f, options <> OptionsFunction f) ->
  snd (interactive lib options None t) = snd (interactive lib options (Some cb) t)
  /\ (forall e,
        fst (interactive lib options None t) = ReturnedPromise (Rejected e)
        <-> fst (interactive lib options (Some cb) t) = CalledBackError cb e)
  /\ (forall creds,
        fst (interactive lib options None t) = ReturnedPromise (Fulfilled creds)
        <-> exists subs,
              fst (interactive lib options (Some cb) t) = CalledBackResult cb creds subs)
  /\ interactive lib (OptionsFunction cb) None t
     = interactive lib OptionsUndefined (Some cb) t.
Proof.
  intros Hobject.
  assert (Hshape : options = OptionsUndefined \/ exists o, options = OptionsObject o).
  { destruct options as [o|f|]; [eauto | now destruct (Hobject f) | auto]. }
  split; [|split; [|split; [|reflexivity]]];
    destruct Hshape as [->|[o ->]];
    unfold interactive, catch_, then_, bind, Promise_resolve, Promise_reject, ret;
    destruct (withInteractiveWithAuthResponse lib _ t) as [[authRes|err] t'];
    cbn [fst snd]; try reflexivity; intros x; split;
    try discriminate; try (intros [= ->]; eauto); try (intros [subs [= ->]]; reflexivity);
    try (intros [subs H]; discriminate H).
Qed.

End EntryPointProperties.

Lemma withServicePrincipalSecret_forms_agree_witness :
  fst (withServicePrincipalSecret Scenario.lib "client-1" "" "tenant-1" OptionsUndefined None [])
  = ReturnedPromise (Rejected (mkError "secret must be a non empty string."))
  /\ withServicePrincipalSecret Scenario.lib "client-1" "" "tenant-1" OptionsUndefined
       (Some (CallbackFn 1)) []
     = (CalledBackError (CallbackFn 1) (mkError "secret must be a non empty string."), []).
Proof.
  assert (Hobject : forall f, OptionsUndefined <> OptionsFunction f) by discriminate.
  destruct (withServicePrincipalSecret_forms_agree Scenario.lib "client-1" "" "tenant-1"
              OptionsUndefined (CallbackFn 1) [] Hobject) as (Htrace & Herr & _ & _).
  assert (Hpromise :
    fst (withServicePrincipalSecret Scenario.lib "client-1" "" "tenant-1" OptionsUndefined None [])
    = ReturnedPromise (Rejected (mkError "secret must be a non empty string.")))
    by reflexivity.
  split; [exact Hpromise|].
  apply (proj1 (Herr _)) in Hpromise.
  rewrite (surjective_pairing (withServicePrincipalSecret _ _ _ _ _ _ _)).
  now rewrite Hpromise, <- Htrace.
Defined.

Lemma interactive_forms_agree_witness :
  fst (interactive Scenario.lib OptionsUndefined None [])
  = ReturnedPromise (Fulfilled Scenario.defaultDeviceCredentials)
  /\ fst (interactive Scenario.lib (OptionsFunction (CallbackFn 7)) None [])
     = CalledBackResult (CallbackFn 7) Scenario.defaultDeviceCredentials [].
Proof.
  assert (Hobject : forall f, OptionsUndefined <> OptionsFunction f) by discriminate.
  destruct (interactive_forms_agree Scenario.lib OptionsUndefined (CallbackFn 7) [] Hobject)
    as (_ & _ & Hok & Hswap).
  assert (Hpromise : fst (interactive Scenario.lib OptionsUndefined None [])
                     = ReturnedPromise (Fulfilled Scenario.defaultDeviceCredentials))
    by (vm_compute; reflexivity).
  split; [exact Hpromise|].
  rewrite Hswap. destruct (proj1 (Hok _) Hpromise) as [subs Hcb].
  rewrite Hcb. f_equal.
  assert (Hq : fst (interactive Scenario.lib OptionsUndefined (Some (CallbackFn 7)) [])
               = CalledBackResult (CallbackFn 7) Scenario.defaultDeviceCredentials [])
    by (vm_compute; reflexivity).
  rewrite Hq in Hcb. now injection Hcb as <-.
Defined.
